(** * python-sentry-logger-wrapper: the log event pipeline and the Sentry filters

    A shallow embedding of [_processors.py] and of the processor chain and
    the filter callbacks that [core.get_logger] installs, followed by the
    properties stated about them.

    Conventions of the embedding.
    - A Python [dict] is an association list with pairwise distinct keys,
      in insertion order ([EventDict]); [d[k] = v] overwrites in place or
      appends, [d.pop(k)] removes and raises [KeyError] on a missing key.
    - Python values are the tagged type [value]; text is a Rocq [string],
      read as ASCII text ([str.upper] and [str.lower] act on the letters
      a-z and A-Z only); floating point numbers are left out.
    - An exception is a [Raise] result; only subclasses of Python's
      [Exception] are modelled, which is what [except Exception] catches.
    - [print] and the stream handler write to one standard output, the
      list of lines threaded by the [io] monad.
    - The processors ignore their [logger] and [method_name] arguments,
      which are therefore dropped. *)

From Stdlib Require Import String Ascii List ZArith Bool Lia.
From Stdlib Require Import DecimalString.
From Stdlib Require PrimFloat.
Import ListNotations.
Local Open Scope string_scope.
Local Open Scope list_scope.

Set Implicit Arguments.

(* ------------------------------------------------------------------ *)
(** ** Python values *)

#[warnings="-register-all"]
Inductive value : Type :=
| VNone
| VBool (b : bool)
| VInt (n : Z)
| VStr (s : string)
| VList (l : list value)
| VDict (d : list (string * value))
| VObj (repr : string).   (* any other object, e.g. a [logging.LogRecord] *)

Abbreviation EventDict := (list (string * value)).

(** Python's truth value of an object, as used by [if x:] and [not x]. *)
Definition truthy (v : value) : bool :=
  match v with
  | VNone => false
  | VBool b => b
  | VInt n => negb (Z.eqb n 0)
  | VStr s => negb (String.eqb s EmptyString)
  | VList l => match l with [] => false | _ => true end
  | VDict d => match d with [] => false | _ => true end
  | VObj _ => true
  end.

(** [v == "lit"] for a text literal: only the same text is equal to it. *)
Definition eq_str (v : value) (lit : string) : bool :=
  match v with
  | VStr s => String.eqb s lit
  | _ => false
  end.

(* ------------------------------------------------------------------ *)
(** ** Exceptions and results *)

Inductive exn : Type :=
| AttributeError (msg : string)
| TypeError (msg : string)
| KeyError (key : string)
| IndexError (msg : string)
| Exception (msg : string).

(** [str(e)], the text that an f-string prints for an exception. *)
Definition exn_str (e : exn) : string :=
  match e with
  | AttributeError m => m
  | TypeError m => m
  | KeyError k => "'" ++ k ++ "'"
  | IndexError m => m
  | Exception m => m
  end.

Inductive result (A : Type) : Type :=
| Ok (a : A)
| Raise (e : exn).

Arguments Ok {A} a.
Arguments Raise {A} e.

Definition rbind {A B} (c : result A) (k : A -> result B) : result B :=
  match c with
  | Ok a => k a
  | Raise e => Raise e
  end.

Declare Scope py_scope.
Delimit Scope py_scope with py.
Notation "x <- c ;; k" := (rbind c (fun x => k))
  (at level 61, c at next level, right associativity) : py_scope.
Notation "' pat <- c ;; k" := (rbind c (fun x => match x with pat => k end))
  (at level 61, pat pattern, c at next level, right associativity) : py_scope.
Local Open Scope py_scope.

Definition is_ok {A} (r : result A) : bool :=
  match r with Ok _ => true | Raise _ => false end.

(* ------------------------------------------------------------------ *)
(** ** Text operations *)

Definition upper_ascii (c : ascii) : ascii :=
  let n := nat_of_ascii c in
  if (97 <=? n)%nat && (n <=? 122)%nat then ascii_of_nat (n - 32) else c.

Definition lower_ascii (c : ascii) : ascii :=
  let n := nat_of_ascii c in
  if (65 <=? n)%nat && (n <=? 90)%nat then ascii_of_nat (n + 32) else c.

Fixpoint map_string (f : ascii -> ascii) (s : string) : string :=
  match s with
  | EmptyString => EmptyString
  | String c r => String (f c) (map_string f r)
  end.

Definition str_upper (s : string) : string := map_string upper_ascii s.
Definition str_lower (s : string) : string := map_string lower_ascii s.

(** [s.startswith("_")] *)
Definition startswith_underscore (s : string) : bool :=
  match s with
  | String c _ => Ascii.eqb c "_"%char
  | EmptyString => false
  end.

(** [needle in hay] on text: [needle] occurs as a substring. *)
Fixpoint str_contains (needle hay : string) : bool :=
  String.prefix needle hay ||
  match hay with
  | EmptyString => false
  | String _ r => str_contains needle r
  end.

(** [s.split(sep)] for a one-character separator: never the empty list. *)
Fixpoint str_split (sep : ascii) (s : string) : list string :=
  match s with
  | EmptyString => [EmptyString]
  | String c r =>
      if Ascii.eqb c sep then EmptyString :: str_split sep r
      else match str_split sep r with
           | h :: t => String c h :: t
           | [] => [String c EmptyString]
           end
  end.

(** [l[i]] on a list of text. *)
Definition list_index (l : list string) (i : nat) : result string :=
  match nth_error l i with
  | Some x => Ok x
  | None => Raise (IndexError "list index out of range")
  end.

(** The method lookups [v.upper()] and [v.lower()]: only text has them. *)
Definition py_upper (v : value) : result value :=
  match v with
  | VStr s => Ok (VStr (str_upper s))
  | _ => Raise (AttributeError "object has no attribute 'upper'")
  end.

Definition py_lower (v : value) : result string :=
  match v with
  | VStr s => Ok (str_lower s)
  | _ => Raise (AttributeError "object has no attribute 'lower'")
  end.

(* ------------------------------------------------------------------ *)
(** ** Dictionaries in insertion order *)

Fixpoint lookup (k : string) (d : EventDict) : option value :=
  match d with
  | [] => None
  | (k', v) :: r => if String.eqb k k' then Some v else lookup k r
  end.

(** [k in d] *)
Definition dict_in (k : string) (d : EventDict) : bool :=
  match lookup k d with Some _ => true | None => false end.

(** [d.get(k, default)] and [d.get(k)] *)
Definition dict_get_default (k : string) (default : value) (d : EventDict) : value :=
  match lookup k d with Some v => v | None => default end.

Definition dict_get (k : string) (d : EventDict) : value :=
  dict_get_default k VNone d.

Fixpoint remove_key (k : string) (d : EventDict) : EventDict :=
  match d with
  | [] => []
  | (k', v) :: r => if String.eqb k k' then r else (k', v) :: remove_key k r
  end.

(** [d.pop(k)]: the value and the dictionary without the key. *)
Definition dict_pop (k : string) (d : EventDict) : result (value * EventDict) :=
  match lookup k d with
  | Some v => Ok (v, remove_key k d)
  | None => Raise (KeyError k)
  end.

(** [d.pop(k, None)] with the popped value discarded. *)
Definition dict_pop_default (k : string) (d : EventDict) : EventDict :=
  remove_key k d.

(** [d[k] = v]: an existing key keeps its position, a new key goes last. *)
Fixpoint dict_set (k : string) (v : value) (d : EventDict) : EventDict :=
  match d with
  | [] => [(k, v)]
  | (k', v') :: r =>
      if String.eqb k k' then (k, v) :: r else (k', v') :: dict_set k v r
  end.

Definition keys (d : EventDict) : list string := map fst d.

(** The representation invariant of a dictionary: no key occurs twice. *)
Definition wf_dict (d : EventDict) : Prop := NoDup (keys d).


(** The method lookup [v.get(k, default)]: only a mapping has it. *)
Definition py_get (v : value) (k : string) (default : value) : result value :=
  match v with
  | VDict d => Ok (dict_get_default k default d)
  | _ => Raise (AttributeError "object has no attribute 'get'")
  end.

(** [lit in v] for a text literal: substring of text, element of a list,
    key of a mapping; any other right operand is not iterable. *)
Definition py_contains (lit : string) (v : value) : result bool :=
  match v with
  | VStr s => Ok (str_contains lit s)
  | VList l => Ok (existsb (fun x => eq_str x lit) l)
  | VDict d => Ok (dict_in lit d)
  | _ => Raise (TypeError "argument is not iterable")
  end.

(* ------------------------------------------------------------------ *)
(** ** Standard output and the [io] monad *)

Definition io (A : Type) : Type := list string -> result A * list string.

Definition io_ret {A} (a : A) : io A := fun out => (Ok a, out).

Definition io_bind {A B} (c : io A) (k : A -> io B) : io B :=
  fun out =>
    match c out with
    | (Ok a, out') => k a out'
    | (Raise e, out') => (Raise e, out')
    end.

Definition io_lift {A} (r : result A) : io A := fun out => (r, out).

(** [print(line, flush=True)] and the stream handler's write. *)
Definition print (line : string) : io unit := fun out => (Ok tt, out ++ [line]).

(** [try: body  except Exception as e: handler e] *)
Definition try_except {A} (body : io A) (handler : exn -> io A) : io A :=
  fun out =>
    match body out with
    | (Ok a, out') => (Ok a, out')
    | (Raise e, out') => handler e out'
    end.

Declare Scope io_scope.
Delimit Scope io_scope with io.
Notation "x <- c ;; k" := (io_bind c (fun x => k))
  (at level 61, c at next level, right associativity) : io_scope.

(* ------------------------------------------------------------------ *)
(** ** _processors.py *)

Module Processors.

Definition STANDARD_FIELDS : list string :=
  ["timestamp"; "log_level"; "service_name"; "message"; "trace_id"; "logger"].

(** [key in STANDARD_FIELDS] *)
Definition is_standard (key : string) : bool :=
  existsb (String.eqb key) STANDARD_FIELDS.

Definition remove_processors_meta_safe (event_dict : EventDict) : EventDict :=
  let event_dict := dict_pop_default "_record" event_dict in
  let event_dict := dict_pop_default "_from_structlog" event_dict in
  event_dict.

Definition rename_and_flatten_fields (event_dict : EventDict) : result EventDict :=
  event_dict <-
    (if dict_in "event" event_dict then
       '(v, event_dict) <- dict_pop "event" event_dict ;;
       Ok (dict_set "message" v event_dict)
     else Ok event_dict) ;;
  event_dict <-
    (if dict_in "logger_name" event_dict then
       '(v, event_dict) <- dict_pop "logger_name" event_dict ;;
       Ok (dict_set "logger_name" v event_dict)
     else Ok event_dict) ;;
  if dict_in "level" event_dict then
    '(v, event_dict) <- dict_pop "level" event_dict ;;
    u <- py_upper v ;;
    Ok (dict_set "log_level" u event_dict)
  else Ok event_dict.

(** The tracing side of [sentry_sdk]: [get_current_scope()] and the
    scope's [get_traceparent()], each of which may raise. *)
Record Scope : Type := { get_traceparent : result (option string) }.
Record SentrySdk : Type := { get_current_scope : result (option Scope) }.

(** The body of the [try] block.  Every statement that can raise comes
    before the two assignments, so on an exception the dictionary is
    still the one that was passed in. *)
Definition trace_lookup (sdk : SentrySdk) (event_dict : EventDict) : result EventDict :=
  scope <- get_current_scope sdk ;;
  match scope with
  | Some scope =>
      traceparent <- get_traceparent scope ;;
      match traceparent with
      | Some traceparent =>
          if truthy (VStr traceparent) then
            let trace_span_list := str_split "-"%char traceparent in
            trace_id <- list_index trace_span_list 0 ;;
            span_id <- list_index trace_span_list 1 ;;
            let event_dict := dict_set "trace_id" (VStr trace_id) event_dict in
            let event_dict := dict_set "span_id" (VStr span_id) event_dict in
            Ok event_dict
          else Raise (Exception "Couldn't extract trace and span")
      | None => Raise (Exception "Couldn't extract trace and span")
      end
  | None => Ok event_dict
  end.

Definition add_sentry_trace_id (sdk : SentrySdk) (event_dict : EventDict) : io EventDict :=
  try_except
    (io_lift (trace_lookup sdk event_dict))
    (fun e =>
       (_ <- print ("DEBUG: Exception in add_sentry_trace_id: " ++ exn_str e) ;;
        io_ret event_dict)%io).

(** One round of the loop of [nest_custom_fields]; the state is the pair
    of [event_dict] and [details]. *)
Definition nest_step (st : EventDict * EventDict) (key : string)
  : result (EventDict * EventDict) :=
  let '(event_dict, details) := st in
  if startswith_underscore key then
    '(_, event_dict) <- dict_pop key event_dict ;;
    Ok (event_dict, details)
  else if negb (is_standard key) then
    '(v, event_dict) <- dict_pop key event_dict ;;
    Ok (event_dict, dict_set key v details)
  else Ok (event_dict, details).

(** [for key in ks: st = body st key] *)
Fixpoint for_each {S : Type} (body : S -> string -> result S)
  (ks : list string) (st : S) : result S :=
  match ks with
  | [] => Ok st
  | key :: ks => st <- body st key ;; for_each body ks st
  end.

Definition nest_custom_fields (event_dict : EventDict) : result EventDict :=
  '(event_dict, details) <- for_each nest_step (keys event_dict) (event_dict, []) ;;
  if truthy (VDict details) then
    Ok (dict_set "details" (VDict details) event_dict)
  else Ok event_dict.

(** One round of the loop of [remove_internal_fields]. *)
Definition remove_internal_step (event_dict : EventDict) (key : string)
  : result EventDict :=
  if startswith_underscore key then
    '(_, event_dict) <- dict_pop key event_dict ;;
    Ok event_dict
  else Ok event_dict.

Definition remove_internal_fields (event_dict : EventDict) : result EventDict :=
  for_each remove_internal_step (keys event_dict) event_dict.

End Processors.

(* ------------------------------------------------------------------ *)
(** ** core.py: the filters and the chain built by [get_logger] *)

Module Core.
Import Processors.

(** The numeric levels of Python's [logging] module. *)
Definition logging_DEBUG : Z := 10.
Definition logging_INFO : Z := 20.
Definition logging_WARNING : Z := 30.
Definition logging_ERROR : Z := 40.
Definition logging_CRITICAL : Z := 50.

Definition severity_map : list (string * Z) :=
  [("debug", logging_DEBUG);
   ("info", logging_INFO);
   ("warn", logging_WARNING);
   ("warning", logging_WARNING);
   ("error", logging_ERROR);
   ("fatal", logging_CRITICAL)].

(** [severity_map.get(key, default)] *)
Fixpoint severity_map_get (m : list (string * Z)) (key : string) (default : Z) : Z :=
  match m with
  | [] => default
  | (k, n) :: r => if String.eqb key k then n else severity_map_get r key default
  end.

(** The filters return the item to keep it and [None] to drop it. *)
Definition before_send_log (sentry_log_level : Z) (event : EventDict)
  : result (option EventDict) :=
  let severity_text := dict_get "severity_text" event in
  below <-
    (if truthy severity_text then
       lowered <- py_lower severity_text ;;
       let event_level := severity_map_get severity_map lowered logging_INFO in
       Ok (event_level <? sentry_log_level)%Z
     else Ok false) ;;
  if below then Ok None
  else
    let logger_name := dict_get_default "logger" (VStr EmptyString) event in
    logger_name <-
      (if negb (truthy logger_name) then
         py_get (dict_get_default "attributes" (VDict []) event)
                "logger.name" (VStr EmptyString)
       else Ok logger_name) ;;
    if eq_str logger_name "uvicorn.access" then
      let message := dict_get_default "body" (VStr EmptyString) event in
      message <-
        (if negb (truthy message) then
           py_get (dict_get_default "logentry" (VDict []) event)
                  "formatted" (VStr EmptyString)
         else Ok message) ;;
      has_path <- py_contains "GET /health" message ;;
      has_proto <- (if has_path then py_contains "HTTP" message else Ok false) ;;
      if has_proto then Ok None else Ok (Some event)
    else Ok (Some event).

Definition breadcrumb_level_map : list (Z * string) :=
  [(logging_DEBUG, "debug");
   (logging_INFO, "info");
   (logging_WARNING, "warning");
   (logging_ERROR, "error");
   (logging_CRITICAL, "fatal")].

Fixpoint breadcrumb_level_map_get (m : list (Z * string)) (key : Z) (default : string)
  : string :=
  match m with
  | [] => default
  | (n, s) :: r => if Z.eqb key n then s else breadcrumb_level_map_get r key default
  end.

Definition breadcrumb_levels : list string :=
  ["debug"; "info"; "warning"; "error"; "fatal"].

(** [l.index(x)]; Python raises [ValueError] where this is [None]. *)
Fixpoint list_index_of (x : string) (l : list string) : option nat :=
  match l with
  | [] => None
  | y :: r =>
      if String.eqb x y then Some 0%nat
      else match list_index_of x r with Some i => Some (S i) | None => None end
  end.

Definition min_breadcrumb_level (sentry_breadcrumbs_level : Z) : string :=
  breadcrumb_level_map_get breadcrumb_level_map sentry_breadcrumbs_level "info".

(** [breadcrumb_levels[breadcrumb_levels.index(min_breadcrumb_level):]];
    the index always exists, see [min_breadcrumb_level_indexed]. *)
Definition allowed_breadcrumb_levels (sentry_breadcrumbs_level : Z) : list string :=
  match list_index_of (min_breadcrumb_level sentry_breadcrumbs_level) breadcrumb_levels with
  | Some i => skipn i breadcrumb_levels
  | None => []
  end.

Definition before_breadcrumb (sentry_breadcrumbs_level : Z) (crumb : EventDict)
  : result (option EventDict) :=
  health <-
    (if eq_str (dict_get_default "category" (VStr EmptyString) crumb) "uvicorn.access" then
       let message := dict_get_default "message" (VStr EmptyString) crumb in
       py_contains "GET /health" message
     else Ok false) ;;
  if health then Ok None
  else
    let crumb_level := dict_get "level" crumb in
    match crumb_level with
    | VNone =>
        Ok (if (sentry_breadcrumbs_level <=? logging_INFO)%Z then Some crumb else None)
    | _ =>
        Ok (if existsb (eq_str crumb_level)
                 (allowed_breadcrumb_levels sentry_breadcrumbs_level)
            then Some crumb else None)
    end.

Definition before_send_transaction (event : EventDict) : result (option EventDict) :=
  let transaction_name := dict_get_default "transaction" (VStr EmptyString) event in
  if eq_str transaction_name "/health" then Ok None else Ok (Some event).

Definition before_send (event : EventDict) : result (option EventDict) :=
  let logger_name := dict_get_default "logger" (VStr EmptyString) event in
  if eq_str logger_name "uvicorn.access" then
    message <- py_get (dict_get_default "logentry" (VDict []) event)
                      "formatted" (VStr EmptyString) ;;
    has_path <- py_contains "GET /health" message ;;
    has_proto <- (if has_path then py_contains "HTTP" message else Ok false) ;;
    if has_proto then Ok None else Ok (Some event)
  else Ok (Some event).

(** *** The processor chain *)

Definition Processor : Type := EventDict -> io EventDict.

Definition lift (f : EventDict -> result EventDict) : Processor :=
  fun event_dict => io_lift (f event_dict).

Definition pure (f : EventDict -> EventDict) : Processor :=
  fun event_dict => io_ret (f event_dict).

(** What the chain takes from the structlog library.  [wrap_for_formatter]
    stands for the whole way from that processor through the logging
    record to the formatter's own processors, on which the library adds
    its bookkeeping keys. *)
Record Structlog : Type := {
  merge_contextvars : Processor;
  add_log_level : Processor;
  add_logger_name : Processor;
  TimeStamper : Processor;
  StackInfoRenderer : Processor;
  format_exc_info : Processor;
  wrap_for_formatter : Processor;
  JSONRenderer : EventDict -> io string
}.

(** [if sentry_dsn:] on an optional text. *)
Definition dsn_given (sentry_dsn : option string) : bool :=
  match sentry_dsn with
  | Some s => truthy (VStr s)
  | None => false
  end.

Definition shared_processors (structlog : Structlog) (sdk : SentrySdk)
  (sentry_dsn : option string) : list Processor :=
  let shared_processors :=
    [ merge_contextvars structlog;
      add_log_level structlog;
      add_logger_name structlog;
      TimeStamper structlog;
      StackInfoRenderer structlog;
      format_exc_info structlog;
      lift rename_and_flatten_fields;
      lift nest_custom_fields ] in
  if dsn_given sentry_dsn then shared_processors ++ [add_sentry_trace_id sdk]
  else shared_processors.

(** structlog's runner: each processor gets the previous one's result. *)
Fixpoint run_processors (ps : list Processor) (event_dict : EventDict) : io EventDict :=
  match ps with
  | [] => io_ret event_dict
  | p :: ps => (event_dict <- p event_dict ;; run_processors ps event_dict)%io
  end.

(** One log call, from the front end's event to the line on stdout:
    the configured [processors], then the formatter's. *)
Definition emit (structlog : Structlog) (sdk : SentrySdk)
  (sentry_dsn : option string) (event_dict : EventDict) : io unit :=
  (event_dict <-
     run_processors
       (shared_processors structlog sdk sentry_dsn ++ [wrap_for_formatter structlog])
       event_dict ;;
   event_dict <- run_processors [pure remove_processors_meta_safe] event_dict ;;
   line <- JSONRenderer structlog event_dict ;;
   print line)%io.

(** The order as the specification words it: normalize, enrich with the
    trace, nest the custom fields, strip the metadata, serialize.  The
    library's stages, of which the specification says nothing, stay where
    the configuration has them. *)
Definition emit_spec_order (structlog : Structlog) (sdk : SentrySdk)
  (event_dict : EventDict) : io unit :=
  (event_dict <- merge_contextvars structlog event_dict ;;
   event_dict <- add_log_level structlog event_dict ;;
   event_dict <- add_logger_name structlog event_dict ;;
   event_dict <- TimeStamper structlog event_dict ;;
   event_dict <- StackInfoRenderer structlog event_dict ;;
   event_dict <- format_exc_info structlog event_dict ;;
   event_dict <- lift rename_and_flatten_fields event_dict ;;
   event_dict <- add_sentry_trace_id sdk event_dict ;;
   event_dict <- lift nest_custom_fields event_dict ;;
   event_dict <- wrap_for_formatter structlog event_dict ;;
   event_dict <- pure remove_processors_meta_safe event_dict ;;
   line <- JSONRenderer structlog event_dict ;;
   print line)%io.

End Core.

(* ------------------------------------------------------------------ *)
(** ** core.py: the configuration gate of [get_logger] *)

Module Config.
Import Processors Core.

(** The processors by name, as the lists handed to structlog hold them. *)
Inductive stage_name : Type :=
| SMergeContextvars
| SAddLogLevel
| SAddLoggerName
| STimeStamper
| SStackInfoRenderer
| SFormatExcInfo
| SRenameAndFlattenFields
| SNestCustomFields
| SAddSentryTraceId
| SWrapForFormatter.

Definition processor_of (structlog : Structlog) (sdk : SentrySdk)
  (n : stage_name) : Processor :=
  match n with
  | SMergeContextvars => merge_contextvars structlog
  | SAddLogLevel => add_log_level structlog
  | SAddLoggerName => add_logger_name structlog
  | STimeStamper => TimeStamper structlog
  | SStackInfoRenderer => StackInfoRenderer structlog
  | SFormatExcInfo => format_exc_info structlog
  | SRenameAndFlattenFields => lift rename_and_flatten_fields
  | SNestCustomFields => lift nest_custom_fields
  | SAddSentryTraceId => add_sentry_trace_id sdk
  | SWrapForFormatter => wrap_for_formatter structlog
  end.

Definition shared_processor_names (sentry_dsn : option string) : list stage_name :=
  let shared_processors :=
    [ SMergeContextvars; SAddLogLevel; SAddLoggerName; STimeStamper;
      SStackInfoRenderer; SFormatExcInfo;
      SRenameAndFlattenFields; SNestCustomFields ] in
  if dsn_given sentry_dsn then shared_processors ++ [SAddSentryTraceId]
  else shared_processors.

(** A call of [sentry_sdk.init]: the one with tracing, logs, the four
    filter hooks and the logging integration, or the minimal one. *)
Inductive SentryInit : Type :=
| FullInit (dsn environment : option string) (traces_sample_rate : PrimFloat.float)
    (send_default_pii : bool) (level event_level : Z)
| MinimalInit (dsn environment : option string).

(** The hooks of a call close over the levels [get_logger] was given. *)
Definition init_before_send_log (i : SentryInit)
  : option (EventDict -> result (option EventDict)) :=
  match i with
  | FullInit _ _ _ _ _ event_level => Some (before_send_log event_level)
  | MinimalInit _ _ => None
  end.

Definition init_before_breadcrumb (i : SentryInit)
  : option (EventDict -> result (option EventDict)) :=
  match i with
  | FullInit _ _ _ _ level _ => Some (before_breadcrumb level)
  | MinimalInit _ _ => None
  end.

Definition init_before_send_transaction (i : SentryInit)
  : option (EventDict -> result (option EventDict)) :=
  match i with
  | FullInit _ _ _ _ _ _ => Some before_send_transaction
  | MinimalInit _ _ => None
  end.

Definition init_before_send (i : SentryInit)
  : option (EventDict -> result (option EventDict)) :=
  match i with
  | FullInit _ _ _ _ _ _ => Some before_send
  | MinimalInit _ _ => None
  end.

Definition init_enable_tracing (i : SentryInit) : bool :=
  match i with
  | FullInit _ _ _ _ _ _ => true
  | MinimalInit _ _ => false
  end.

Definition init_traces_sample_rate (i : SentryInit) : PrimFloat.float :=
  match i with
  | FullInit _ _ rate _ _ _ => rate
  | MinimalInit _ _ => PrimFloat.zero
  end.

(** A handler of the root logger: the stdout handler with the JSON
    formatter and its [foreign_pre_chain], or one installed by others. *)
Inductive Handler : Type :=
| StdoutJsonHandler (foreign_pre_chain : list stage_name)
| OtherHandler (name : string).

(** The process-wide state that [get_logger] and [reset_configuration]
    touch: the module's flag, the calls of [sentry_sdk.init] that returned, the
    processors given to [structlog.configure] ([None]: structlog's
    defaults), and the root logger's handlers and level. *)
Record World : Type := {
  is_configured : bool;
  sentry_inits : list SentryInit;
  structlog_processors : option (list stage_name);
  root_handlers : list Handler;
  root_level : Z
}.

Record Args : Type := {
  service_name : string;
  log_level : Z;
  sentry_dsn : option string;
  sentry_breadcrumbs_level : Z;
  sentry_log_level : Z;
  sentry_environment : option string;
  sentry_sample_rate : PrimFloat.float;
  sentry_send_pii : bool
}.

(** [sentry_environment == lit] *)
Definition environment_is (environment : option string) (lit : string) : bool :=
  match environment with
  | Some s => String.eqb s lit
  | None => false
  end.

Definition init_dsn (i : SentryInit) : option string :=
  match i with
  | FullInit dsn _ _ _ _ _ => dsn
  | MinimalInit dsn _ => dsn
  end.

(** [get_logger] over the state and over [sentry_sdk_init], the outcome
    of a call of [sentry_sdk.init]: it returns, or it raises (a DSN that
    cannot be parsed, a sample rate out of range).  That call comes
    first and nothing catches its exception, so when it raises nothing
    has been configured and the flag is not set; the calls into structlog
    and logging that follow are taken not to raise.  The result is the
    state left behind and the logger returned, named by its service, or
    the exception. *)
Definition get_logger (sentry_sdk_init : SentryInit -> result unit)
  (a : Args) (w : World) : World * result string :=
  if negb (is_configured w) then
    let initialised : result (list SentryInit) :=
      if (environment_is (sentry_environment a) "production" ||
          environment_is (sentry_environment a) "test") &&
         dsn_given (sentry_dsn a)
      then
        let i :=
          FullInit (sentry_dsn a) (sentry_environment a) (sentry_sample_rate a)
            (sentry_send_pii a) (sentry_breadcrumbs_level a) (sentry_log_level a) in
        _ <- sentry_sdk_init i ;;
        Ok (sentry_inits w ++ [i])
      else if dsn_given (sentry_dsn a) then
        let i := MinimalInit (sentry_dsn a) (sentry_environment a) in
        _ <- sentry_sdk_init i ;;
        Ok (sentry_inits w ++ [i])
      else Ok (sentry_inits w) in
    match initialised with
    | Ok inits =>
        let shared_processors := shared_processor_names (sentry_dsn a) in
        ({| is_configured := true;
            sentry_inits := inits;
            structlog_processors := Some (shared_processors ++ [SWrapForFormatter]);
            root_handlers := [StdoutJsonHandler shared_processors];
            root_level := log_level a |},
         Ok (service_name a))
    | Raise e => (w, Raise e)
    end
  else (w, Ok (service_name a)).

Definition reset_configuration (w : World) : World :=
  {| is_configured := false;
     sentry_inits := sentry_inits w;
     structlog_processors := None;
     root_handlers := root_handlers w;
     root_level := root_level w |}.

(** A call of one of the two functions of the package. *)
Inductive call : Type :=
| GetLogger (a : Args)
| ResetConfiguration.

(** The state after a call, whether it returned or raised. *)
Definition run_call (sentry_sdk_init : SentryInit -> result unit)
  (w : World) (c : call) : World :=
  match c with
  | GetLogger a => fst (get_logger sentry_sdk_init a w)
  | ResetConfiguration => reset_configuration w
  end.

Definition run_calls (sentry_sdk_init : SentryInit -> result unit)
  (cs : list call) (w : World) : World :=
  fold_left (run_call sentry_sdk_init) cs w.

End Config.

(* ------------------------------------------------------------------ *)
(** ** A stand-in for structlog, to run the chain on examples *)

Module Reference.
Import Processors Core.
Local Open Scope string_scope.

Definition dquote : string := String (ascii_of_nat 34) EmptyString.

Fixpoint json_escape (s : string) : string :=
  match s with
  | EmptyString => EmptyString
  | String c r =>
      if Ascii.eqb c (ascii_of_nat 34) || Ascii.eqb c "\"%char
      then String "\"%char (String c (json_escape r))
      else String c (json_escape r)
  end.

Definition json_string (s : string) : string := dquote ++ json_escape s ++ dquote.

Definition json_int (n : Z) : string := NilEmpty.string_of_int (Z.to_int n).

(** [json.dumps(v, ensure_ascii=False)] on ASCII text without control
    characters; an object that is no JSON value is refused. *)
Fixpoint json_dumps (v : value) : result string :=
  match v with
  | VNone => Ok "null"
  | VBool b => Ok (if b then "true" else "false")
  | VInt n => Ok (json_int n)
  | VStr s => Ok (json_string s)
  | VList l =>
      items <-
        (fix items_of (l : list value) : result (list string) :=
           match l with
           | [] => Ok []
           | x :: r => s <- json_dumps x ;; t <- items_of r ;; Ok (s :: t)
           end) l ;;
      Ok ("[" ++ String.concat ", " items ++ "]")
  | VDict d =>
      items <-
        (fix items_of (d : list (string * value)) : result (list string) :=
           match d with
           | [] => Ok []
           | (k, x) :: r =>
               s <- json_dumps x ;; t <- items_of r ;;
               Ok ((json_string k ++ ": " ++ s) :: t)
           end) d ;;
      Ok ("{" ++ String.concat ", " items ++ "}")
  | VObj repr =>
      Raise (TypeError ("Object of type " ++ repr ++ " is not JSON serializable"))
  end.

(** A call [logger.<method_name>(...)] on the logger [name] at the time
    [now], for the methods debug, info, warning, error and critical, with
    no context variables bound and neither [stack_info] nor [exc_info]
    passed. *)
Definition structlog (method_name name now : string) : Structlog := {|
  merge_contextvars := pure (fun ed => ed);
  add_log_level := pure (dict_set "level" (VStr method_name));
  add_logger_name := pure (dict_set "logger" (VStr name));
  TimeStamper := pure (dict_set "timestamp" (VStr now));
  StackInfoRenderer := pure (fun ed => ed);
  format_exc_info := pure (fun ed => ed);
  wrap_for_formatter :=
    pure (fun ed => dict_set "_from_structlog" (VBool true)
                      (dict_set "_record" (VObj "LogRecord") ed));
  JSONRenderer := fun ed => io_lift (json_dumps (VDict ed))
|}.

(** A tracing context whose correlation header is [header]. *)
Definition tracing (header : string) : SentrySdk :=
  {| get_current_scope := Ok (Some {| get_traceparent := Ok (Some header) |}) |}.

(** No scope at all, a scope without a header, and a failing lookup. *)
Definition no_scope : SentrySdk := {| get_current_scope := Ok None |}.
Definition no_header : SentrySdk :=
  {| get_current_scope := Ok (Some {| get_traceparent := Ok None |}) |}.
Definition failing (e : exn) : SentrySdk := {| get_current_scope := Raise e |}.

End Reference.

Import Processors Core.


(* ------------------------------------------------------------------ *)
(** ** Notions used to state the properties *)

(** The three kinds of key of the field nester. *)
Definition is_custom (key : string) : bool :=
  negb (startswith_underscore key) && negb (is_standard key).

Definition standard_part (d : EventDict) : EventDict :=
  filter (fun kv => is_standard (fst kv)) d.

Definition custom_part (d : EventDict) : EventDict :=
  filter (fun kv => is_custom (fst kv)) d.

(** The value of [src], changed by [f], goes to [dst]; nothing happens
    when [src] is missing. *)
Definition move_key (src dst : string) (f : value -> value) (d : EventDict)
  : EventDict :=
  match lookup src d with
  | Some v => dict_set dst (f v) (remove_key src d)
  | None => d
  end.

Definition is_text (v : value) : bool :=
  match v with VStr _ => true | _ => false end.

(** The field [k], when present, satisfies [p]. *)
Definition field_is (k : string) (p : value -> bool) (d : EventDict) : bool :=
  match lookup k d with Some v => p v | None => true end.

(** The [level] of the event, when present, is text. *)
Definition level_text (d : EventDict) : bool := field_is "level" is_text d.

Definition upper_text (v : value) : value :=
  match v with VStr s => VStr (str_upper s) | _ => v end.

(** A decidable check of the representation invariant. *)
Fixpoint distinct (l : list string) : bool :=
  match l with
  | [] => true
  | x :: r => negb (existsb (String.eqb x) r) && distinct r
  end.

(** The first two hyphen-delimited segments of the correlation header of
    an active tracing context, when there is such a context and its
    header has two segments at least. *)
Definition correlation (sdk : SentrySdk) : option (string * string) :=
  match get_current_scope sdk with
  | Ok (Some scope) =>
      match get_traceparent scope with
      | Ok (Some header) =>
          match str_split "-"%char header with
          | trace_id :: span_id :: _ => Some (trace_id, span_id)
          | _ => None
          end
      | _ => None
      end
  | _ => None
  end.

Definition text_of (v : value) : string :=
  match v with VStr s => s | _ => EmptyString end.

Definition is_mapping_with_text (k : string) (v : value) : bool :=
  match v with VDict d => field_is k is_text d | _ => false end.

(** A log item whose inspected fields, when present, hold text, and
    whose [attributes] and [logentry], when present, are mappings with a
    text entry. *)
Definition log_item_typed (event : EventDict) : bool :=
  field_is "severity_text" is_text event &&
  field_is "logger" is_text event &&
  field_is "attributes" (is_mapping_with_text "logger.name") event &&
  field_is "body" is_text event &&
  field_is "logentry" (is_mapping_with_text "formatted") event.

(** A breadcrumb whose [message], when present, is text. *)
Definition crumb_typed (crumb : EventDict) : bool :=
  field_is "message" is_text crumb.

(** The text at [outer], or else at [inner] within the mapping [nested]. *)
Definition text_at (outer nested inner : string) (event : EventDict) : string :=
  let s := text_of (dict_get_default outer (VStr EmptyString) event) in
  if String.eqb s EmptyString then
    match lookup nested event with
    | Some (VDict m) => text_of (dict_get_default inner (VStr EmptyString) m)
    | _ => EmptyString
    end
  else s.

(** The access-log health-check rule: the item comes from the access-log
    logger and its message holds the path marker and the protocol
    marker, each looked up in either of the two shapes of an item. *)
Definition is_health_check_access_log (event : EventDict) : bool :=
  String.eqb (text_at "logger" "attributes" "logger.name" event) "uvicorn.access" &&
  (str_contains "GET /health" (text_at "body" "logentry" "formatted" event) &&
   str_contains "HTTP" (text_at "body" "logentry" "formatted" event)).

(** The access-log rule of the breadcrumb filter. *)
Definition is_health_check_crumb (crumb : EventDict) : bool :=
  eq_str (dict_get_default "category" (VStr EmptyString) crumb) "uvicorn.access" &&
  str_contains "GET /health"
    (text_of (dict_get_default "message" (VStr EmptyString) crumb)).

(** The place of a label in the order debug < info < warning < error <
    fatal, when it is one of the five. *)
Definition level_rank (label : string) : option nat :=
  list_index_of label breadcrumb_levels.

(** The place of an event's label: [warn] is read as [warning], any
    label outside the five as [info]. *)
Definition event_rank (label : string) : nat :=
  match level_rank (if String.eqb label "warn" then "warning" else label) with
  | Some i => i
  | None => 1
  end.

(** The numeric logging level at a place of the order. *)
Definition level_of_rank (i : nat) : Z := 10 * (Z.of_nat i + 1).

(** [label] is one of the five and not below [minimum]. *)
Definition at_or_above (minimum label : string) : bool :=
  match level_rank minimum, level_rank label with
  | Some j, Some i => (j <=? i)%nat
  | _, _ => false
  end.

(** Keep or drop, whatever item is returned. *)
Definition verdict (r : result (option EventDict)) : result bool :=
  match r with
  | Ok (Some _) => Ok true
  | Ok None => Ok false
  | Raise e => Raise e
  end.

(** The event's label is non-empty text and lies below the threshold. *)
Definition severity_below (sentry_log_level : Z) (event : EventDict) : bool :=
  match lookup "severity_text" event with
  | Some (VStr s) =>
      negb (String.eqb s EmptyString) &&
      (level_of_rank (event_rank (str_lower s)) <? sentry_log_level)%Z
  | _ => false
  end.

(** What the field normalizer returns when it returns. *)
Definition renamed (ev : EventDict) : EventDict :=
  move_key "level" "log_level" upper_text
    (move_key "logger_name" "logger_name" (fun v => v)
       (move_key "event" "message" (fun v => v) ev)).

(** *** Sample inputs *)

(** An event used to instantiate the properties below. *)
Definition sample_event : EventDict :=
  [("event", VStr "Service started"); ("level", VStr "info");
   ("_record", VObj "LogRecord"); ("timestamp", VStr "2024-01-15T10:30:00Z");
   ("details", VStr "old"); ("version", VStr "1.0.0")].

(** The call [logger.info("Service started", version="1.0.0")] on the
    logger [my-service], under a tracing context with a header. *)
Definition sample_structlog : Structlog :=
  Reference.structlog "info" "my-service" "2024-01-15T10:30:00Z".
Definition sample_sdk : SentrySdk := Reference.tracing "abc123-def456".
Definition sample_dsn : option string := Some "https://key@sentry.example/1".
Definition sample_call : EventDict :=
  [("version", VStr "1.0.0"); ("event", VStr "Service started")].

(** Case analysis on the outcome of each stage of a chain. *)
Ltac no_inner_case x :=
  lazymatch x with
  | context [match _ with pair _ _ => _ end] => fail
  | context [match _ with Ok _ => _ | Raise _ => _ end] => fail
  | _ => idtac
  end.

Ltac stage_cases :=
  repeat match goal with
         | |- context [match ?x with pair _ _ => _ end] =>
             no_inner_case x; destruct x as [[?|?] ?]
         | |- context [match ?x with Ok _ => _ | Raise _ => _ end] =>
             no_inner_case x; destruct x
         end.

(** The entries whose key does not begin with an underscore. *)
Definition public_part (d : EventDict) : EventDict :=
  filter (fun kv => negb (startswith_underscore (fst kv))) d.

(** The two bookkeeping keys of the logging substrate. *)
Definition is_meta (key : string) : bool :=
  String.eqb key "_record" || String.eqb key "_from_structlog".

(** The five numeric levels of the logging module. *)
Definition standard_levels : list Z :=
  [logging_DEBUG; logging_INFO; logging_WARNING; logging_ERROR; logging_CRITICAL].

(** What the field nester returns when it returns. *)
Definition nested (ev : EventDict) : EventDict :=
  standard_part ev ++
  match custom_part ev with
  | [] => []
  | _ :: _ => [("details", VDict (custom_part ev))]
  end.

(** A filter outcome that hands back the item itself, or drops it, or
    raises: never another item. *)
Definition unaltered (item : EventDict) (r : result (option EventDict)) : Prop :=
  match r with
  | Ok (Some item') => item' = item
  | _ => True
  end.

(** The state of a fresh process, and the arguments of a call for a
    production service with a DSN. *)
Definition initial_world : Config.World :=
  {| Config.is_configured := false;
     Config.sentry_inits := [];
     Config.structlog_processors := None;
     Config.root_handlers := [];
     Config.root_level := logging_WARNING |}.

Definition sample_args : Config.Args :=
  {| Config.service_name := "my-service";
     Config.log_level := logging_INFO;
     Config.sentry_dsn := sample_dsn;
     Config.sentry_breadcrumbs_level := logging_INFO;
     Config.sentry_log_level := logging_ERROR;
     Config.sentry_environment := Some "production";
     Config.sentry_sample_rate := PrimFloat.one;
     Config.sentry_send_pii := false |}.

(** The same service in an environment that is neither production nor
    test, and a service without a DSN. *)
Definition staging_args : Config.Args :=
  {| Config.service_name := "my-service";
     Config.log_level := logging_DEBUG;
     Config.sentry_dsn := sample_dsn;
     Config.sentry_breadcrumbs_level := logging_INFO;
     Config.sentry_log_level := logging_ERROR;
     Config.sentry_environment := Some "staging";
     Config.sentry_sample_rate := PrimFloat.one;
     Config.sentry_send_pii := false |}.

Definition local_args : Config.Args :=
  {| Config.service_name := "other-service";
     Config.log_level := logging_DEBUG;
     Config.sentry_dsn := None;
     Config.sentry_breadcrumbs_level := logging_INFO;
     Config.sentry_log_level := logging_ERROR;
     Config.sentry_environment := None;
     Config.sentry_sample_rate := PrimFloat.one;
     Config.sentry_send_pii := false |}.

(** A service whose DSN Sentry cannot parse. *)
Definition bad_dsn_args : Config.Args :=
  {| Config.service_name := "my-service";
     Config.log_level := logging_INFO;
     Config.sentry_dsn := Some "not-a-dsn";
     Config.sentry_breadcrumbs_level := logging_INFO;
     Config.sentry_log_level := logging_ERROR;
     Config.sentry_environment := Some "production";
     Config.sentry_sample_rate := PrimFloat.one;
     Config.sentry_send_pii := false |}.

(** A Sentry that refuses that DSN and takes every other call. *)
Definition refuse_bad_dsn (i : Config.SentryInit) : result unit :=
  match Config.init_dsn i with
  | Some dsn =>
      if String.eqb dsn "not-a-dsn" then Raise (Exception "Unsupported scheme ''")
      else Ok tt
  | None => Ok tt
  end.

(** [sentry_environment == "production" or sentry_environment == "test"] *)
Definition production_or_test (a : Config.Args) : bool :=
  Config.environment_is (Config.sentry_environment a) "production" ||
  Config.environment_is (Config.sentry_environment a) "test".

(** The root logger has the stdout JSON handler alone, with the chain for
    the DSN [dsn], and structlog has that chain (followed by the wrapper)
    exactly while the flag is set. *)
Definition configured_for (dsn : option string) (w : Config.World) : Prop :=
  Config.root_handlers w =
    [Config.StdoutJsonHandler (Config.shared_processor_names dsn)] /\
  Config.structlog_processors w =
    (if Config.is_configured w
     then Some (Config.shared_processor_names dsn ++ [Config.SWrapForFormatter])
     else None).

(* ------------------------------------------------------------------ *)
(** ** Facts about dictionaries *)

Section DictFacts.

Implicit Types (k : string) (v : value) (d : EventDict).

Lemma lookup_dict_set_same k v d : lookup k (dict_set k v d) = Some v.
Proof.
  induction d as [|[k' v'] r IH]; simpl.
  - now rewrite String.eqb_refl.
  - destruct (String.eqb k k') eqn:E; simpl.
    + now rewrite String.eqb_refl.
    + now rewrite E.
Qed.

Lemma lookup_dict_set_other k k' v d :
  k <> k' -> lookup k (dict_set k' v d) = lookup k d.
Proof.
  intros Hne. apply String.eqb_neq in Hne.
  induction d as [|[k0 v0] r IH]; simpl.
  - now rewrite Hne.
  - destruct (String.eqb k' k0) eqn:E; simpl.
    + apply String.eqb_eq in E. subst k0. now rewrite Hne.
    + now rewrite IH.
Qed.

Lemma lookup_remove_key_other k k' d :
  k <> k' -> lookup k (remove_key k' d) = lookup k d.
Proof.
  intros Hne. apply String.eqb_neq in Hne.
  induction d as [|[k0 v0] r IH]; simpl; trivial.
  destruct (String.eqb k' k0) eqn:E; simpl.
  - apply String.eqb_eq in E. subst k0. now rewrite Hne.
  - now rewrite IH.
Qed.

Lemma lookup_None k d : lookup k d = None <-> ~ In k (keys d).
Proof.
  induction d as [|[k0 v0] r IH]; simpl.
  - tauto.
  - destruct (String.eqb k k0) eqn:E.
    + apply String.eqb_eq in E. subst. split; [discriminate | tauto].
    + apply String.eqb_neq in E. rewrite IH. split.
      * intros H [H'|H']; [now apply E | now apply H].
      * tauto.
Qed.

Lemma lookup_Some_in k v d : lookup k d = Some v -> In k (keys d).
Proof.
  intros H. destruct (in_dec string_dec k (keys d)) as [Hin|Hn]; trivial.
  apply lookup_None in Hn. congruence.
Qed.

Lemma lookup_remove_key_same k d :
  wf_dict d -> lookup k (remove_key k d) = None.
Proof.
  unfold wf_dict. induction d as [|[k0 v0] r IH]; simpl; trivial.
  intros Hnd. inversion Hnd as [|? ? Hnin Hnd']; subst.
  destruct (String.eqb k k0) eqn:E; simpl.
  - apply String.eqb_eq in E. subst. now apply lookup_None.
  - rewrite E. now apply IH.
Qed.

Lemma in_keys_remove_key k k' d :
  In k' (keys (remove_key k d)) -> In k' (keys d).
Proof.
  induction d as [|[k0 v0] r IH]; simpl; trivial.
  destruct (String.eqb k k0); simpl; tauto.
Qed.

Lemma wf_remove_key k d : wf_dict d -> wf_dict (remove_key k d).
Proof.
  unfold wf_dict. induction d as [|[k0 v0] r IH]; simpl; trivial.
  intros Hnd. inversion Hnd as [|? ? Hnin Hnd']; subst.
  destruct (String.eqb k k0); simpl; trivial.
  constructor; [|now apply IH].
  intros Hin. apply Hnin. eapply in_keys_remove_key, Hin.
Qed.

Lemma in_keys_dict_set k k' v d :
  In k' (keys (dict_set k v d)) <-> k' = k \/ In k' (keys d).
Proof.
  induction d as [|[k0 v0] r IH]; simpl.
  - intuition.
  - destruct (String.eqb k k0) eqn:E; simpl.
    + apply String.eqb_eq in E. subst. intuition.
    + rewrite IH. intuition.
Qed.

Lemma wf_dict_set k v d : wf_dict d -> wf_dict (dict_set k v d).
Proof.
  unfold wf_dict. induction d as [|[k0 v0] r IH]; simpl.
  - intros _. repeat constructor. simpl. tauto.
  - intros Hnd. inversion Hnd as [|? ? Hnin Hnd']; subst.
    destruct (String.eqb k k0) eqn:E; simpl.
    + apply String.eqb_eq in E. subst. now constructor.
    + apply String.eqb_neq in E. constructor; [|now apply IH].
      intros Hin. apply in_keys_dict_set in Hin. destruct Hin; [congruence | tauto].
Qed.

(** A new key goes to the end. *)
Lemma dict_set_fresh k v d : ~ In k (keys d) -> dict_set k v d = d ++ [(k, v)].
Proof.
  induction d as [|[k0 v0] r IH]; simpl; trivial.
  intros Hn. destruct (String.eqb k k0) eqn:E.
  - apply String.eqb_eq in E. subst. tauto.
  - rewrite IH; tauto.
Qed.

(** Popping a key that does not occur before its entry. *)
Lemma lookup_app_fresh k v pre r :
  ~ In k (keys pre) -> lookup k (pre ++ (k, v) :: r) = Some v.
Proof.
  induction pre as [|[k0 v0] p IH]; simpl.
  - now rewrite String.eqb_refl.
  - intros Hn. destruct (String.eqb k k0) eqn:E.
    + apply String.eqb_eq in E. subst. tauto.
    + apply IH. tauto.
Qed.

Lemma remove_key_app_fresh k v pre r :
  ~ In k (keys pre) -> remove_key k (pre ++ (k, v) :: r) = pre ++ r.
Proof.
  induction pre as [|[k0 v0] p IH]; simpl.
  - now rewrite String.eqb_refl.
  - intros Hn. destruct (String.eqb k k0) eqn:E.
    + apply String.eqb_eq in E. subst. tauto.
    + rewrite IH; tauto.
Qed.

Lemma lookup_app_l k pre r :
  ~ In k (keys r) -> lookup k (pre ++ r) = lookup k pre.
Proof.
  intros Hn. induction pre as [|[k0 v0] p IH]; simpl.
  - now apply lookup_None.
  - now rewrite IH.
Qed.

(** Filtering on the key keeps the entries of the keys that pass. *)
Lemma lookup_filter (p : string -> bool) k d :
  lookup k (filter (fun kv => p (fst kv)) d) = if p k then lookup k d else None.
Proof.
  induction d as [|[k0 v0] r IH]; simpl.
  - now destruct (p k).
  - destruct (p k0) eqn:P0; simpl; destruct (String.eqb k k0) eqn:E;
      try (apply String.eqb_eq in E; subst k0; rewrite P0); trivial.
    rewrite IH. now rewrite P0.
Qed.

Lemma in_keys_filter (p : string -> bool) k d :
  In k (keys (filter (fun kv => p (fst kv)) d)) -> p k = true /\ In k (keys d).
Proof.
  unfold keys. rewrite !in_map_iff. intros [[k0 v0] [E Hin]].
  apply filter_In in Hin. simpl in *. subst. split; [tauto|].
  exists (k, v0). tauto.
Qed.

Lemma lookup_app_r k pre r :
  ~ In k (keys pre) -> lookup k (pre ++ r) = lookup k r.
Proof.
  induction pre as [|[k0 v0] p IH]; simpl; trivial.
  intros Hn. destruct (String.eqb k k0) eqn:E.
  - apply String.eqb_eq in E. subst. tauto.
  - apply IH. tauto.
Qed.

Lemma wf_dict_check d : distinct (keys d) = true -> wf_dict d.
Proof.
  unfold wf_dict. induction (keys d) as [|x r IH]; simpl.
  - constructor.
  - rewrite andb_true_iff, negb_true_iff. intros [Hx Hr].
    constructor; [|now apply IH].
    intros Hin. assert (existsb (String.eqb x) r = true); [|congruence].
    apply existsb_exists. exists x. split; trivial. apply String.eqb_refl.
Qed.

Lemma dict_in_true k d : dict_in k d = true <-> exists v, lookup k d = Some v.
Proof.
  unfold dict_in. destruct (lookup k d); split; try eauto; try discriminate.
  intros [? ?]. discriminate.
Qed.

Lemma dict_in_false k d : dict_in k d = false <-> lookup k d = None.
Proof.
  unfold dict_in. destruct (lookup k d); split; congruence.
Qed.

End DictFacts.

(* ------------------------------------------------------------------ *)
(** ** The field nester *)

Section Nester.

Lemma keys_app (a b : EventDict) : keys (a ++ b) = keys a ++ keys b.
Proof. apply map_app. Qed.

Lemma is_standard_not_internal key :
  is_standard key = true -> startswith_underscore key = false.
Proof.
  unfold is_standard, STANDARD_FIELDS. simpl.
  repeat match goal with
         | |- context [String.eqb key ?l] =>
             destruct (String.eqb_spec key l); [subst; reflexivity|]
         end.
  discriminate.
Qed.

Lemma standard_part_cons k v r :
  standard_part ((k, v) :: r) =
  if is_standard k then (k, v) :: standard_part r else standard_part r.
Proof. reflexivity. Qed.

Lemma custom_part_cons k v r :
  custom_part ((k, v) :: r) =
  if is_custom k then (k, v) :: custom_part r else custom_part r.
Proof. reflexivity. Qed.

(** The loop invariant: with [pre] the standard entries already passed
    and [det] the custom entries already moved, the rest of the keys is
    handled entry by entry. *)
Lemma nest_loop (rest : EventDict) :
  forall pre det,
    NoDup (keys (pre ++ rest)) ->
    (forall k, In k (keys det) -> ~ In k (keys rest)) ->
    for_each nest_step (keys rest) (pre ++ rest, det) =
    Ok (pre ++ standard_part rest, det ++ custom_part rest).
Proof.
  induction rest as [|[k v] r IH]; intros pre det Hnd Hdet.
  - simpl. now rewrite !app_nil_r.
  - assert (Hpre : ~ In k (keys pre) /\ ~ In k (keys r)).
    { rewrite keys_app in Hnd. simpl in Hnd. apply NoDup_remove_2 in Hnd.
      rewrite in_app_iff in Hnd. tauto. }
    assert (Hnd' : NoDup (keys (pre ++ r))).
    { rewrite keys_app in *. simpl in Hnd. now apply NoDup_remove_1 in Hnd. }
    destruct Hpre as [Hpre Hr].
    rewrite standard_part_cons, custom_part_cons. unfold is_custom.
    cbn [keys map fst for_each nest_step].
    unfold dict_pop. rewrite lookup_app_fresh, remove_key_app_fresh by assumption.
    destruct (startswith_underscore k) eqn:Hu; cbn [rbind negb andb].
    + destruct (is_standard k) eqn:Hs.
      { apply is_standard_not_internal in Hs. congruence. }
      apply IH; trivial.
      intros k' Hin Hin'. apply (Hdet k' Hin). simpl. tauto.
    + destruct (is_standard k) eqn:Hs; cbn [rbind negb andb].
      * replace (pre ++ (k, v) :: r) with ((pre ++ [(k, v)]) ++ r)
          by now rewrite <- app_assoc.
        rewrite IH.
        -- now rewrite <- app_assoc.
        -- now rewrite <- app_assoc.
        -- intros k' Hin Hin'. apply (Hdet k' Hin). simpl. tauto.
      * rewrite dict_set_fresh.
        2:{ intros Hin. apply (Hdet k Hin). simpl. tauto. }
        rewrite IH; trivial.
        -- now rewrite <- app_assoc.
        -- intros k' Hin. rewrite keys_app, in_app_iff in Hin. simpl in Hin.
           intros Hin'. destruct Hin as [Hin|[<-|[]]]; [|tauto].
           apply (Hdet k' Hin). simpl. tauto.
Qed.

Lemma details_not_in_standard_part d : ~ In "details" (keys (standard_part d)).
Proof.
  intros Hin. apply in_keys_filter in Hin. destruct Hin as [Hs _]. discriminate.
Qed.

(** What the nester returns on a dictionary with distinct keys. *)
Lemma nest_custom_fields_eq ev :
  wf_dict ev ->
  nest_custom_fields ev =
  Ok (match custom_part ev with
      | [] => standard_part ev
      | _ :: _ => standard_part ev ++ [("details", VDict (custom_part ev))]
      end).
Proof.
  intros Hwf. unfold nest_custom_fields.
  assert (Hloop := nest_loop ev [] [] Hwf (fun k (H : In k []) => match H with end)).
  simpl in Hloop. rewrite Hloop.
  simpl. destruct (custom_part ev) eqn:Hc; trivial.
  now rewrite dict_set_fresh by apply details_not_in_standard_part.
Qed.

End Nester.

(* ------------------------------------------------------------------ *)
(** ** The field normalizer *)

Section Normalizer.

Lemma lookup_move_key_src src dst f d :
  wf_dict d -> src <> dst -> lookup src (move_key src dst f d) = None.
Proof.
  intros Hwf Hne. unfold move_key. destruct (lookup src d) eqn:E; trivial.
  rewrite lookup_dict_set_other by assumption. now apply lookup_remove_key_same.
Qed.

Lemma lookup_move_key_dst src dst f d :
  lookup dst (move_key src dst f d) =
  match lookup src d with Some v => Some (f v) | None => lookup dst d end.
Proof.
  unfold move_key. destruct (lookup src d); trivial. apply lookup_dict_set_same.
Qed.

Lemma lookup_move_key_other k src dst f d :
  k <> src -> k <> dst -> lookup k (move_key src dst f d) = lookup k d.
Proof.
  intros H1 H2. unfold move_key. destruct (lookup src d); trivial.
  rewrite lookup_dict_set_other, lookup_remove_key_other; trivial.
Qed.

Lemma wf_move_key src dst f d : wf_dict d -> wf_dict (move_key src dst f d).
Proof.
  intros Hwf. unfold move_key. destruct (lookup src d); trivial.
  now apply wf_dict_set, wf_remove_key.
Qed.

(** One [if src in d: d[dst] = d.pop(src)] statement. *)
Lemma rename_step src dst d :
  (if dict_in src d then
     '(v, d') <- dict_pop src d ;; Ok (dict_set dst v d')
   else Ok d) = Ok (move_key src dst (fun v => v) d).
Proof.
  unfold dict_in, dict_pop, move_key. now destruct (lookup src d).
Qed.

Lemma lookup_level_before_upper ev :
  lookup "level"
    (move_key "logger_name" "logger_name" (fun v => v)
       (move_key "event" "message" (fun v => v) ev)) = lookup "level" ev.
Proof. rewrite !lookup_move_key_other; trivial; discriminate. Qed.

(** The normalizer returns when [level] is text or missing ... *)
Lemma rename_and_flatten_fields_eq ev :
  level_text ev = true -> rename_and_flatten_fields ev = Ok (renamed ev).
Proof.
  intros Hl. unfold rename_and_flatten_fields, renamed.
  rewrite rename_step. cbn [rbind]. rewrite rename_step. cbn [rbind].
  assert (Hmid := lookup_level_before_upper ev).
  set (mid := move_key "logger_name" _ _ _) in *.
  unfold dict_in, dict_pop, move_key. rewrite Hmid.
  unfold level_text, field_is in Hl.
  destruct (lookup "level" ev) as [[| | |s| | |]|]; try discriminate; reflexivity.
Qed.

(** ... and raises on any other [level]. *)
Lemma rename_and_flatten_fields_raises ev :
  level_text ev = false ->
  rename_and_flatten_fields ev =
  Raise (AttributeError "object has no attribute 'upper'").
Proof.
  intros Hl. unfold rename_and_flatten_fields.
  rewrite rename_step. cbn [rbind]. rewrite rename_step. cbn [rbind].
  assert (Hmid := lookup_level_before_upper ev).
  set (mid := move_key "logger_name" _ _ _) in *.
  unfold dict_in, dict_pop. rewrite Hmid.
  unfold level_text, field_is in Hl.
  destruct (lookup "level" ev) as [[| | |s| | |]|]; try discriminate; reflexivity.
Qed.

Lemma wf_renamed ev : wf_dict ev -> wf_dict (renamed ev).
Proof. intros H. unfold renamed. now repeat apply wf_move_key. Qed.

Lemma lookup_renamed_event ev : wf_dict ev -> lookup "event" (renamed ev) = None.
Proof.
  intros Hwf. unfold renamed.
  rewrite !lookup_move_key_other by discriminate.
  apply lookup_move_key_src; [assumption | discriminate].
Qed.

Lemma lookup_renamed_level ev : wf_dict ev -> lookup "level" (renamed ev) = None.
Proof.
  intros Hwf. unfold renamed.
  apply lookup_move_key_src; [now repeat apply wf_move_key | discriminate].
Qed.

Lemma lookup_renamed_message ev :
  lookup "message" (renamed ev) =
  match lookup "event" ev with Some v => Some v | None => lookup "message" ev end.
Proof.
  unfold renamed. rewrite !lookup_move_key_other by discriminate.
  apply lookup_move_key_dst.
Qed.

Lemma lookup_renamed_logger_name ev :
  lookup "logger_name" (renamed ev) = lookup "logger_name" ev.
Proof.
  unfold renamed. rewrite lookup_move_key_other by discriminate.
  rewrite lookup_move_key_dst, lookup_move_key_other by discriminate.
  now destruct (lookup "logger_name" ev).
Qed.

Lemma lookup_renamed_log_level ev :
  lookup "log_level" (renamed ev) =
  match lookup "level" ev with
  | Some v => Some (upper_text v)
  | None => lookup "log_level" ev
  end.
Proof.
  unfold renamed. rewrite lookup_move_key_dst, lookup_level_before_upper.
  now rewrite !lookup_move_key_other by discriminate.
Qed.

Lemma lookup_renamed_other k ev :
  ~ In k ["event"; "message"; "logger_name"; "level"; "log_level"] ->
  lookup k (renamed ev) = lookup k ev.
Proof.
  simpl. intros H. unfold renamed.
  rewrite !lookup_move_key_other; trivial; intros ->; tauto.
Qed.


End Normalizer.

(* ------------------------------------------------------------------ *)
(** ** The trace enricher *)

Section Enricher.

Lemma add_sentry_trace_id_cases sdk ev out :
  exists diag,
    add_sentry_trace_id sdk ev out =
    (Ok (match correlation sdk with
         | Some (trace_id, span_id) =>
             dict_set "span_id" (VStr span_id)
               (dict_set "trace_id" (VStr trace_id) ev)
         | None => ev
         end), out ++ diag).
Proof.
  unfold add_sentry_trace_id, try_except, io_lift, trace_lookup, correlation.
  destruct (get_current_scope sdk) as [[scope|]|e]; cbn [rbind].
  - destruct (get_traceparent scope) as [[header|]|e]; cbn [rbind].
    + destruct header as [|c r].
      * simpl. eexists. reflexivity.
      * cbn [truthy String.eqb negb].
        destruct (str_split "-"%char (String c r)) as [|t [|s rest]];
          cbn; try (eexists; reflexivity).
        exists []. now rewrite app_nil_r.
    + simpl. eexists. reflexivity.
    + simpl. eexists. reflexivity.
  - exists []. now rewrite app_nil_r.
  - simpl. eexists. reflexivity.
Qed.

End Enricher.

(* ------------------------------------------------------------------ *)
(** ** The filters *)

Section Filters.

(** Case analysis on the tests that both sides of a filter equation share. *)
Ltac filter_cases :=
  repeat (cbn [truthy negb rbind py_contains text_of eq_str andb];
          match goal with
          | |- context [String.eqb ?a ?b] => destruct (String.eqb a b) eqn:?
          | |- context [Z.ltb ?a ?b] => destruct (Z.ltb a b) eqn:?
          | |- context [Z.leb ?a ?b] => destruct (Z.leb a b) eqn:?
          | |- context [str_contains ?a ?b] => destruct (str_contains a b) eqn:?
          end);
  try reflexivity; try discriminate.

Lemma text_field_cases k d :
  field_is k is_text d = true ->
  lookup k d = None \/ exists s, lookup k d = Some (VStr s).
Proof.
  unfold field_is. destruct (lookup k d) as [[| | |s| | |]|]; try discriminate; eauto.
Qed.

Lemma mapping_field_cases k k' d :
  field_is k (is_mapping_with_text k') d = true ->
  lookup k d = None \/
  exists m, lookup k d = Some (VDict m) /\ field_is k' is_text m = true.
Proof.
  unfold field_is at 1. destruct (lookup k d) as [[| | | | |m|]|]; try discriminate; eauto.
Qed.

Lemma severity_map_get_rank label :
  severity_map_get severity_map label logging_INFO = level_of_rank (event_rank label).
Proof.
  unfold severity_map, event_rank, level_rank, breadcrumb_levels.
  cbn [severity_map_get list_index_of].
  repeat match goal with
         | |- context [String.eqb label ?l] =>
             destruct (String.eqb_spec label l);
             [subst; first [reflexivity | congruence]|];
             cbn [list_index_of]
         end.
  reflexivity.
Qed.

Lemma before_send_log_typed lvl e :
  log_item_typed e = true ->
  before_send_log lvl e =
  if severity_below lvl e then Ok None
  else Ok (if is_health_check_access_log e then None else Some e).
Proof.
  unfold log_item_typed. rewrite !andb_true_iff.
  intros [[[[Hs Hl] Ha] Hb] He].
  apply text_field_cases in Hs, Hl, Hb.
  apply mapping_field_cases in Ha, He.
  unfold before_send_log, severity_below, is_health_check_access_log, text_at,
    dict_get, dict_get_default, py_get, dict_get_default.
  destruct Hs as [Hs|[s Hs]], Hl as [Hl|[l Hl]], Ha as [Ha|[ma [Ha Hma]]],
    Hb as [Hb|[b Hb]], He as [He|[me [He Hme]]];
    rewrite Hs, Hl, Ha, Hb, He;
    try (apply text_field_cases in Hma; destruct Hma as [Hma|[n Hma]]);
    try (apply text_field_cases in Hme; destruct Hme as [Hme|[f Hme]]);
    rewrite ?Hma, ?Hme;
    cbn [truthy negb rbind py_lower text_of lookup andb];
    rewrite ?severity_map_get_rank;
    filter_cases.
Qed.

Lemma min_breadcrumb_level_cases lvl :
  In (min_breadcrumb_level lvl) breadcrumb_levels.
Proof.
  unfold min_breadcrumb_level, breadcrumb_level_map.
  cbn [breadcrumb_level_map_get].
  repeat match goal with
         | |- context [Z.eqb lvl ?n] => destruct (Z.eqb lvl n)
         end; simpl; tauto.
Qed.

(** The slice of the allowed levels never fails. *)
Lemma min_breadcrumb_level_indexed lvl :
  exists i, list_index_of (min_breadcrumb_level lvl) breadcrumb_levels = Some i.
Proof.
  destruct (min_breadcrumb_level_cases lvl) as [<-|[<-|[<-|[<-|[<-|[]]]]]];
    eexists; reflexivity.
Qed.

(** Membership in the allowed levels is the comparison in the order. *)
Lemma allowed_at_or_above lvl t :
  existsb (eq_str (VStr t)) (allowed_breadcrumb_levels lvl) =
  at_or_above (min_breadcrumb_level lvl) t.
Proof.
  unfold allowed_breadcrumb_levels, at_or_above, level_rank.
  destruct (min_breadcrumb_level_cases lvl) as [<-|[<-|[<-|[<-|[<-|[]]]]]];
    cbn [list_index_of String.eqb Ascii.eqb Bool.eqb skipn breadcrumb_levels
         existsb eq_str orb];
    unfold breadcrumb_levels; cbn [list_index_of];
    repeat match goal with
           | |- context [String.eqb t ?l] =>
               destruct (String.eqb_spec t l); [subst; reflexivity|];
               cbn [orb]
           end; reflexivity.
Qed.

Lemma before_breadcrumb_typed lvl c :
  crumb_typed c = true ->
  before_breadcrumb lvl c =
  Ok (if is_health_check_crumb c then None
      else match dict_get "level" c with
           | VNone => if (lvl <=? logging_INFO)%Z then Some c else None
           | VStr t =>
               if at_or_above (min_breadcrumb_level lvl) t then Some c else None
           | _ => None
           end).
Proof.
  unfold crumb_typed. intros Hm. apply text_field_cases in Hm.
  unfold before_breadcrumb, is_health_check_crumb.
  assert (Hnone : forall v, is_text v = false ->
            existsb (eq_str v) (allowed_breadcrumb_levels lvl) = false).
  { intros v Hv. induction (allowed_breadcrumb_levels lvl) as [|x r IH]; simpl; trivial.
    rewrite IH. destruct v; simpl in *; try reflexivity; discriminate. }
  assert (Hmsg : exists m,
             dict_get_default "message" (VStr EmptyString) c = VStr m).
  { unfold dict_get_default. destruct Hm as [->|[m ->]]; eauto. }
  destruct Hmsg as [m ->].
  destruct (eq_str (dict_get_default "category" (VStr EmptyString) c) "uvicorn.access");
    cbn [py_contains rbind text_of andb];
    try destruct (str_contains "GET /health" m); cbn [rbind]; trivial;
    destruct (dict_get "level" c) as [| | |t| | |]; trivial;
    rewrite ?allowed_at_or_above; trivial; now rewrite Hnone.
Qed.

End Filters.

(* ------------------------------------------------------------------ *)
(** ** Examples *)

Section Examples.

Example str_upper_info : str_upper "Info" = "INFO".
Proof. reflexivity. Qed.

Example str_split_header : str_split "-"%char "abc123-def456-01" = ["abc123"; "def456"; "01"].
Proof. reflexivity. Qed.

Example rename_service_started :
  rename_and_flatten_fields (sample_call ++ [("level", VStr "info")]) =
  Ok [("version", VStr "1.0.0"); ("message", VStr "Service started");
      ("log_level", VStr "INFO")].
Proof. reflexivity. Qed.

Example enrich_header :
  add_sentry_trace_id (Reference.tracing "abc123-def456") [("message", VStr "m")] [] =
  (Ok [("message", VStr "m"); ("trace_id", VStr "abc123"); ("span_id", VStr "def456")], []).
Proof. reflexivity. Qed.

Example enrich_no_header :
  add_sentry_trace_id Reference.no_header [("message", VStr "m")] [] =
  (Ok [("message", VStr "m")],
   ["DEBUG: Exception in add_sentry_trace_id: Couldn't extract trace and span"]).
Proof. reflexivity. Qed.

Example enrich_one_segment :
  add_sentry_trace_id (Reference.tracing "abc123") [("message", VStr "m")] [] =
  (Ok [("message", VStr "m")],
   ["DEBUG: Exception in add_sentry_trace_id: list index out of range"]).
Proof. reflexivity. Qed.

Example enrich_failing_lookup :
  add_sentry_trace_id (Reference.failing (AttributeError "no client"))
    [("message", VStr "m")] [] =
  (Ok [("message", VStr "m")],
   ["DEBUG: Exception in add_sentry_trace_id: no client"]).
Proof. reflexivity. Qed.

Example enrich_no_scope :
  add_sentry_trace_id Reference.no_scope [("message", VStr "m")] [] =
  (Ok [("message", VStr "m")], []).
Proof. reflexivity. Qed.

Example health_check_dropped :
  before_send_log logging_INFO
    [("severity_text", VStr "info"); ("logger", VStr "uvicorn.access");
     ("body", VStr "GET /health HTTP/1.1 200")] = Ok None.
Proof. reflexivity. Qed.

Example orders_kept :
  let item := [("severity_text", VStr "info");
               ("attributes", VDict [("logger.name", VStr "uvicorn.access")]);
               ("body", VStr "GET /orders HTTP/1.1 200")] in
  before_send_log logging_INFO item = Ok (Some item).
Proof. reflexivity. Qed.

Example breadcrumbs_at_warning :
  before_breadcrumb logging_WARNING [("type", VStr "http")] = Ok None /\
  before_breadcrumb logging_WARNING [("level", VStr "info")] = Ok None /\
  before_breadcrumb logging_WARNING [("level", VStr "error")] =
    Ok (Some [("level", VStr "error")]).
Proof. repeat split. Qed.

Example transactions :
  before_send_transaction [("transaction", VStr "/health")] = Ok None /\
  before_send_transaction [("transaction", VStr "/orders")] =
    Ok (Some [("transaction", VStr "/orders")]).
Proof. split; reflexivity. Qed.

(** Re-applying the normalizer keeps every entry but may change the
    place of [logger_name] in the insertion order. *)
Example rename_twice_moves_logger_name :
  rename_and_flatten_fields [("logger_name", VStr "a"); ("level", VStr "info")] =
    Ok [("logger_name", VStr "a"); ("log_level", VStr "INFO")] /\
  rename_and_flatten_fields [("logger_name", VStr "a"); ("log_level", VStr "INFO")] =
    Ok [("log_level", VStr "INFO"); ("logger_name", VStr "a")].
Proof. split; reflexivity. Qed.

End Examples.

(* ------------------------------------------------------------------ *)
(** ** The stated properties *)

(** C3.  The trace enricher never raises.  When an active tracing context
    has a correlation header of two segments at least, it sets [trace_id]
    and [span_id] to the first and the second segment and leaves every
    other field alone; in every other case (no scope, no header, an empty
    header, a header of one segment, a failing lookup) it returns the
    event as it was.  Standard output only grows. *)
Theorem add_sentry_trace_id_correlates (sdk : SentrySdk) (ev : EventDict)
  (out : list string) :
  exists ev' diag,
    add_sentry_trace_id sdk ev out = (Ok ev', out ++ diag) /\
    match correlation sdk with
    | Some (trace_id, span_id) =>
        lookup "trace_id" ev' = Some (VStr trace_id) /\
        lookup "span_id" ev' = Some (VStr span_id) /\
        (forall k, k <> "trace_id" -> k <> "span_id" -> lookup k ev' = lookup k ev)
    | None => ev' = ev
    end.
Proof.
  destruct (add_sentry_trace_id_cases sdk ev out) as [diag H].
  eexists. exists diag. split; [exact H|].
  destruct (correlation sdk) as [[t s]|]; trivial.
  split; [|split].
  - rewrite lookup_dict_set_other by discriminate. apply lookup_dict_set_same.
  - apply lookup_dict_set_same.
  - intros k H1 H2. now rewrite !lookup_dict_set_other.
Qed.

(** C4.  On an event with distinct keys the field nester returns the
    standard entries in their order, followed, when there is a custom
    entry, by one [details] entry that holds exactly the custom entries
    in their order.  No key of the result begins with an underscore,
    every standard key keeps its value, and without custom entries there
    is no [details] key. *)
Theorem nest_custom_fields_partitions (ev : EventDict) :
  wf_dict ev ->
  exists out,
    nest_custom_fields ev = Ok out /\
    out = standard_part ev ++
          match custom_part ev with
          | [] => []
          | _ :: _ => [("details", VDict (custom_part ev))]
          end /\
    (forall k, In k (keys out) -> startswith_underscore k = false) /\
    (forall k, is_standard k = true -> lookup k out = lookup k ev) /\
    lookup "details" out =
      match custom_part ev with
      | [] => None
      | _ :: _ => Some (VDict (custom_part ev))
      end.
Proof.
  intros Hwf. eexists. split; [now apply nest_custom_fields_eq|].
  assert (Hshape :
    match custom_part ev with
    | [] => standard_part ev
    | _ :: _ => standard_part ev ++ [("details", VDict (custom_part ev))]
    end =
    standard_part ev ++
    match custom_part ev with
    | [] => []
    | _ :: _ => [("details", VDict (custom_part ev))]
    end).
  { destruct (custom_part ev); trivial. now rewrite app_nil_r. }
  rewrite Hshape. split; [reflexivity|]. split; [|split].
  - intros k Hin. rewrite keys_app, in_app_iff in Hin. destruct Hin as [Hin|Hin].
    + apply in_keys_filter in Hin. now apply is_standard_not_internal.
    + destruct (custom_part ev); simpl in Hin; [tauto|].
      destruct Hin as [<-|[]]. reflexivity.
  - intros k Hs. rewrite lookup_app_l.
    + unfold standard_part. now rewrite lookup_filter, Hs.
    + destruct (custom_part ev); simpl; [tauto|].
      intros [<-|[]]. discriminate.
  - rewrite lookup_app_r by apply details_not_in_standard_part.
    destruct (custom_part ev); reflexivity.
Qed.

Lemma nest_custom_fields_partitions_witness :
  wf_dict sample_event /\
  nest_custom_fields sample_event =
  Ok [("timestamp", VStr "2024-01-15T10:30:00Z");
      ("details", VDict [("event", VStr "Service started"); ("level", VStr "info");
                         ("details", VStr "old"); ("version", VStr "1.0.0")])].
Proof.
  assert (Hwf : wf_dict sample_event) by (apply wf_dict_check; reflexivity).
  split; [exact Hwf|].
  destruct (nest_custom_fields_partitions Hwf) as [out [Hrun [Hout _]]].
  rewrite Hrun, Hout. reflexivity.
Defined.

(** C9.  An event that already has a [details] key gets a new [details]
    container, built from the custom entries alone, in which the old
    [details] value sits under the key [details]. *)
Theorem nest_custom_fields_nests_details (ev : EventDict) (old : value) :
  wf_dict ev ->
  lookup "details" ev = Some old ->
  exists out,
    nest_custom_fields ev = Ok out /\
    lookup "details" out = Some (VDict (custom_part ev)) /\
    lookup "details" (custom_part ev) = Some old.
Proof.
  intros Hwf Hold.
  assert (Hin : lookup "details" (custom_part ev) = Some old).
  { unfold custom_part. now rewrite lookup_filter. }
  eexists. split; [now apply nest_custom_fields_eq|]. split; trivial.
  destruct (custom_part ev) eqn:Hc; [discriminate|].
  rewrite lookup_app_r by apply details_not_in_standard_part.
  simpl. reflexivity.
Qed.

Lemma nest_custom_fields_nests_details_witness :
  exists out,
    nest_custom_fields sample_event = Ok out /\
    lookup "details" out = Some (VDict (custom_part sample_event)) /\
    lookup "details" (custom_part sample_event) = Some (VStr "old").
Proof.
  apply (@nest_custom_fields_nests_details sample_event (VStr "old")).
  - apply wf_dict_check. reflexivity.
  - reflexivity.
Defined.

(** C5.  On an event with distinct keys whose [level], when present, is
    text, the field normalizer returns: [event] is gone and [message]
    holds its value, [logger_name] keeps its value, [level] is gone and
    [log_level] holds its upper-cased text; where [event] or [level] is
    missing, [message] or [log_level] is as it was; every other key
    keeps its value. *)
Theorem rename_and_flatten_fields_renames (ev : EventDict) :
  wf_dict ev ->
  level_text ev = true ->
  exists out,
    rename_and_flatten_fields ev = Ok out /\
    lookup "event" out = None /\
    lookup "message" out =
      match lookup "event" ev with
      | Some v => Some v
      | None => lookup "message" ev
      end /\
    lookup "logger_name" out = lookup "logger_name" ev /\
    lookup "level" out = None /\
    (forall s, lookup "level" ev = Some (VStr s) ->
               lookup "log_level" out = Some (VStr (str_upper s))) /\
    (lookup "level" ev = None -> lookup "log_level" out = lookup "log_level" ev) /\
    (forall k, ~ In k ["event"; "message"; "logger_name"; "level"; "log_level"] ->
               lookup k out = lookup k ev).
Proof.
  intros Hwf Hl. exists (renamed ev).
  split; [now apply rename_and_flatten_fields_eq|].
  split; [now apply lookup_renamed_event|].
  split; [apply lookup_renamed_message|].
  split; [apply lookup_renamed_logger_name|].
  split; [now apply lookup_renamed_level|].
  split; [|split].
  - intros s Hs. now rewrite lookup_renamed_log_level, Hs.
  - intros Hn. now rewrite lookup_renamed_log_level, Hn.
  - intros k Hk. now apply lookup_renamed_other.
Qed.

Lemma rename_and_flatten_fields_renames_witness :
  exists out,
    rename_and_flatten_fields sample_event = Ok out /\
    lookup "event" out = None /\
    lookup "message" out = Some (VStr "Service started") /\
    lookup "level" out = None /\
    lookup "log_level" out = Some (VStr "INFO").
Proof.
  destruct (@rename_and_flatten_fields_renames sample_event)
    as [out [Hrun [He [Hm [_ [Hl [Hu _]]]]]]].
  - apply wf_dict_check. reflexivity.
  - reflexivity.
  - exists out. repeat split; trivial. apply (Hu "info"). reflexivity.
Defined.

(** C7, as the code has it.  The event [{}] is returned as it is by the
    field normalizer: no [message] key appears. *)
Lemma message_not_always_present :
  rename_and_flatten_fields [] = Ok [] /\
  dict_in "event" [] = false /\ dict_in "message" [] = false.
Proof. repeat split. Qed.

(** C7, amended.  After the field normalizer the event has a [message]
    key exactly when the input had an [event] key or a [message] key. *)
Theorem message_present_iff (ev : EventDict) :
  level_text ev = true ->
  exists out,
    rename_and_flatten_fields ev = Ok out /\
    dict_in "message" out = dict_in "event" ev || dict_in "message" ev.
Proof.
  intros Hl. exists (renamed ev). split; [now apply rename_and_flatten_fields_eq|].
  unfold dict_in. rewrite lookup_renamed_message.
  destruct (lookup "event" ev); reflexivity.
Qed.

Lemma message_present_iff_witness :
  exists out,
    rename_and_flatten_fields sample_event = Ok out /\
    dict_in "message" out =
    dict_in "event" sample_event || dict_in "message" sample_event.
Proof. apply (@message_present_iff sample_event). reflexivity. Defined.




(** C1, as the code has it.  With a DSN and a correlation header, the
    configured chain prints the span identifier at top level, after
    [details]; the order of the specification would nest it in
    [details]. *)
Lemma emit_order_differs :
  exists line line',
    emit sample_structlog sample_sdk sample_dsn sample_call [] = (Ok tt, [line]) /\
    emit_spec_order sample_structlog sample_sdk sample_call [] = (Ok tt, [line']) /\
    Reference.json_dumps
      (VDict [("logger", VStr "my-service");
              ("timestamp", VStr "2024-01-15T10:30:00Z");
              ("message", VStr "Service started");
              ("log_level", VStr "INFO");
              ("details", VDict [("version", VStr "1.0.0")]);
              ("trace_id", VStr "abc123");
              ("span_id", VStr "def456")]) = Ok line /\
    Reference.json_dumps
      (VDict [("logger", VStr "my-service");
              ("timestamp", VStr "2024-01-15T10:30:00Z");
              ("message", VStr "Service started");
              ("log_level", VStr "INFO");
              ("trace_id", VStr "abc123");
              ("details", VDict [("version", VStr "1.0.0");
                                 ("span_id", VStr "def456")])]) = Ok line' /\
    line <> line'.
Proof.
  eexists. eexists.
  split; [vm_compute; reflexivity|].
  split; [vm_compute; reflexivity|].
  split; [vm_compute; reflexivity|].
  split; [vm_compute; reflexivity|].
  intros H. apply String.eqb_eq in H. vm_compute in H. discriminate.
Qed.

(** C1, amended.  For every event, the configured chain is the library's
    stages, then field normalization, then nesting of the custom fields,
    then trace enrichment (only when a DSN was given), then, at render
    time, stripping of the internal metadata and serialization, each run
    once in that order. *)
Theorem emit_runs_stages_in_order (structlog : Structlog) (sdk : SentrySdk)
  (sentry_dsn : option string) (event_dict : EventDict) (out : list string) :
  emit structlog sdk sentry_dsn event_dict out =
  (event_dict <- merge_contextvars structlog event_dict ;;
   event_dict <- add_log_level structlog event_dict ;;
   event_dict <- add_logger_name structlog event_dict ;;
   event_dict <- TimeStamper structlog event_dict ;;
   event_dict <- StackInfoRenderer structlog event_dict ;;
   event_dict <- format_exc_info structlog event_dict ;;
   event_dict <- lift rename_and_flatten_fields event_dict ;;
   event_dict <- lift nest_custom_fields event_dict ;;
   event_dict <- (if dsn_given sentry_dsn
                  then add_sentry_trace_id sdk event_dict
                  else io_ret event_dict) ;;
   event_dict <- wrap_for_formatter structlog event_dict ;;
   event_dict <- pure remove_processors_meta_safe event_dict ;;
   line <- JSONRenderer structlog event_dict ;;
   print line)%io out.
Proof.
  unfold emit, shared_processors.
  destruct (dsn_given sentry_dsn); cbn [app run_processors];
    unfold io_bind, lift, pure, io_lift, io_ret;
    stage_cases; reflexivity.
Qed.

(** C2, as the code has it.  A [level] that is a number makes the field
    normalizer raise; so does a numeric [severity_text] in the event
    filter, and a message that is [None] in the breadcrumb filter. *)
Lemma stages_raise_on_other_values :
  rename_and_flatten_fields [("level", VInt 5)] =
    Raise (AttributeError "object has no attribute 'upper'") /\
  before_send_log logging_ERROR [("severity_text", VInt 5)] =
    Raise (AttributeError "object has no attribute 'lower'") /\
  before_breadcrumb logging_INFO
    [("category", VStr "uvicorn.access"); ("message", VNone)] =
    Raise (TypeError "argument is not iterable").
Proof. repeat split. Qed.

(** C2, amended.  On an event with distinct keys whose [level], when
    present, is text, each stage returns and so does their chain, with
    fields missing or added at will; the field normalizer raises exactly
    on the other events.  The event filter returns on an item whose
    inspected fields hold text (and whose [attributes] and [logentry] are
    mappings with a text entry), the breadcrumb filter on a breadcrumb
    whose [message] is text, the transaction filter on every item. *)
Theorem stages_total_on_typed (sdk : SentrySdk) (ev : EventDict) (out : list string)
  (lvl_e : Z) (e : EventDict) (lvl_b : Z) (c t : EventDict) :
  wf_dict ev ->
  level_text ev = true ->
  log_item_typed e = true ->
  crumb_typed c = true ->
  (forall ev0, is_ok (rename_and_flatten_fields ev0) = level_text ev0) /\
  (exists ev1, rename_and_flatten_fields ev = Ok ev1) /\
  (exists ev2, nest_custom_fields ev = Ok ev2) /\
  (exists ev3 out', add_sentry_trace_id sdk ev out = (Ok ev3, out')) /\
  (exists ev4 out',
      run_processors
        [lift rename_and_flatten_fields; lift nest_custom_fields;
         add_sentry_trace_id sdk; pure remove_processors_meta_safe] ev out =
      (Ok ev4, out')) /\
  (exists r, before_send_log lvl_e e = Ok r) /\
  (exists r, before_breadcrumb lvl_b c = Ok r) /\
  (exists r, before_send_transaction t = Ok r).
Proof.
  intros Hwf Hl He Hc.
  split.
  { intros ev0. destruct (level_text ev0) eqn:E.
    - now rewrite rename_and_flatten_fields_eq.
    - now rewrite rename_and_flatten_fields_raises. }
  split; [eexists; now apply rename_and_flatten_fields_eq|].
  split; [eexists; now apply nest_custom_fields_eq|].
  split.
  { destruct (add_sentry_trace_id_cases sdk ev out) as [diag H]. eauto. }
  split.
  { cbn [run_processors]. unfold io_bind, lift, pure, io_lift, io_ret.
    rewrite rename_and_flatten_fields_eq by assumption.
    rewrite nest_custom_fields_eq by now apply wf_renamed.
    match goal with
    | |- context [add_sentry_trace_id sdk ?d out] =>
        destruct (add_sentry_trace_id_cases sdk d out) as [diag ->]
    end.
    eauto. }
  split.
  { rewrite before_send_log_typed by assumption.
    destruct (severity_below lvl_e e); eauto. }
  split.
  { rewrite before_breadcrumb_typed by assumption. eauto. }
  unfold before_send_transaction.
  destruct (eq_str _ _); eauto.
Qed.

Lemma stages_total_on_typed_witness :
  exists ev4 out',
    run_processors
      [lift rename_and_flatten_fields; lift nest_custom_fields;
       add_sentry_trace_id sample_sdk; pure remove_processors_meta_safe]
      sample_event [] = (Ok ev4, out').
Proof.
  destruct (@stages_total_on_typed sample_sdk sample_event []
              logging_ERROR [("severity_text", VStr "error")]
              logging_INFO [("level", VStr "info")]
              [("transaction", VStr "/orders")])
    as [_ [_ [_ [_ [H _]]]]].
  - apply wf_dict_check. reflexivity.
  - reflexivity.
  - reflexivity.
  - reflexivity.
  - exact H.
Defined.

(** C6, as the code has it.  With the minimum breadcrumb level INFO, a
    breadcrumb labelled [notice], which is none of the five levels, is
    dropped, while a breadcrumb labelled [info] is kept. *)
Lemma breadcrumb_unknown_label_dropped :
  level_rank "notice" = None /\
  before_breadcrumb logging_INFO [("level", VStr "notice")] = Ok None /\
  before_breadcrumb logging_INFO [("level", VStr "info")] =
    Ok (Some [("level", VStr "info")]).
Proof. repeat split. Qed.

(** C6, amended.  The event filter places a non-empty text label, read
    without regard to case and with [warn] for [warning], in the order
    debug < info < warning < error < fatal, any other label counting as
    info, and drops the item when that place is below the threshold.  The
    breadcrumb filter keeps a labelled breadcrumb that is no health-check
    entry exactly when the label is literally one of the five and not
    below the configured minimum in the same order: a breadcrumb with any
    other label is dropped. *)
Theorem severity_order_in_filters (lvl_e : Z) (e : EventDict) (s : string)
  (lvl_b : Z) (c : EventDict) (t : string) :
  log_item_typed e = true ->
  lookup "severity_text" e = Some (VStr s) ->
  s <> EmptyString ->
  crumb_typed c = true ->
  lookup "level" c = Some (VStr t) ->
  before_send_log lvl_e e =
    (if (level_of_rank (event_rank (str_lower s)) <? lvl_e)%Z then Ok None
     else Ok (if is_health_check_access_log e then None else Some e)) /\
  before_breadcrumb lvl_b c =
    Ok (if is_health_check_crumb c then None
        else if at_or_above (min_breadcrumb_level lvl_b) t then Some c else None) /\
  (level_rank t = None -> before_breadcrumb lvl_b c = Ok None).
Proof.
  intros He Hs Hne Hc Ht.
  assert (Hb : before_breadcrumb lvl_b c =
    Ok (if is_health_check_crumb c then None
        else if at_or_above (min_breadcrumb_level lvl_b) t then Some c else None)).
  { rewrite before_breadcrumb_typed by assumption.
    unfold dict_get, dict_get_default. now rewrite Ht. }
  split; [|split; [exact Hb|]].
  - rewrite before_send_log_typed by assumption.
    unfold severity_below. rewrite Hs.
    apply String.eqb_neq in Hne. now rewrite Hne.
  - intros Hr. rewrite Hb. unfold at_or_above. rewrite Hr.
    destruct (is_health_check_crumb c); [reflexivity|].
    destruct (level_rank (min_breadcrumb_level lvl_b)); reflexivity.
Qed.

Lemma severity_order_in_filters_witness :
  before_send_log logging_ERROR [("severity_text", VStr "Notice")] = Ok None /\
  before_breadcrumb logging_INFO [("level", VStr "notice")] = Ok None.
Proof.
  destruct (@severity_order_in_filters
              logging_ERROR [("severity_text", VStr "Notice")] "Notice"
              logging_INFO [("level", VStr "notice")] "notice")
    as [He [_ Hb]].
  - reflexivity.
  - reflexivity.
  - discriminate.
  - reflexivity.
  - reflexivity.
  - split; [exact He | apply Hb; reflexivity].
Defined.

(** C10.  When [severity_text] is absent or empty the outcome of the
    event filter does not depend on the minimum event severity, and on an
    item whose inspected fields hold text the item is dropped exactly
    when it is a health-check access log entry. *)
Theorem before_send_log_without_severity (lvl : Z) (e : EventDict) :
  lookup "severity_text" e = None \/
  lookup "severity_text" e = Some (VStr EmptyString) ->
  (forall lvl', before_send_log lvl' e = before_send_log lvl e) /\
  (log_item_typed e = true ->
   before_send_log lvl e =
   Ok (if is_health_check_access_log e then None else Some e)).
Proof.
  intros Hs. split.
  - intros lvl'. unfold before_send_log, dict_get, dict_get_default.
    destruct Hs as [-> | ->]; reflexivity.
  - intros Ht. rewrite before_send_log_typed by assumption.
    unfold severity_below. destruct Hs as [-> | ->]; reflexivity.
Qed.

Lemma before_send_log_without_severity_witness :
  before_send_log logging_CRITICAL
    [("logger", VStr "uvicorn.access"); ("body", VStr "GET /health HTTP/1.1 200")] =
    Ok None /\
  before_send_log logging_CRITICAL
    [("severity_text", VStr EmptyString); ("logger", VStr "app")] =
    Ok (Some [("severity_text", VStr EmptyString); ("logger", VStr "app")]).
Proof.
  split.
  - apply (proj2 (@before_send_log_without_severity logging_CRITICAL
                    [("logger", VStr "uvicorn.access");
                     ("body", VStr "GET /health HTTP/1.1 200")]
                    (or_introl eq_refl)) eq_refl).
  - apply (proj2 (@before_send_log_without_severity logging_CRITICAL
                    [("severity_text", VStr EmptyString); ("logger", VStr "app")]
                    (or_intror eq_refl)) eq_refl).
Defined.

(* ------------------------------------------------------------------ *)
(** ** Further properties of the processors *)

Section MoreDictFacts.

Implicit Types (k : string) (d : EventDict) (p q : string -> bool).

Lemma filter_keys_id p d :
  (forall k, In k (keys d) -> p k = true) ->
  filter (fun kv => p (fst kv)) d = d.
Proof.
  induction d as [|[k0 v0] r IH]; simpl; trivial.
  intros H. rewrite (H k0) by tauto. f_equal. apply IH. intros k Hk. apply H. tauto.
Qed.

Lemma filter_keys_none p d :
  (forall k, In k (keys d) -> p k = false) ->
  filter (fun kv => p (fst kv)) d = [].
Proof.
  induction d as [|[k0 v0] r IH]; simpl; trivial.
  intros H. rewrite (H k0) by tauto. apply IH. intros k Hk. apply H. tauto.
Qed.

Lemma filter_filter_keys p q d :
  filter (fun kv => p (fst kv)) (filter (fun kv => q (fst kv)) d) =
  filter (fun kv => p (fst kv) && q (fst kv)) d.
Proof.
  induction d as [|[k0 v0] r IH]; simpl; trivial.
  destruct (q k0); simpl; rewrite ?andb_false_r, ?andb_true_r; trivial.
  destruct (p k0); simpl; now rewrite IH.
Qed.

Lemma wf_filter p d : wf_dict d -> wf_dict (filter (fun kv => p (fst kv)) d).
Proof.
  unfold wf_dict. induction d as [|[k0 v0] r IH]; simpl; trivial.
  intros Hnd. inversion Hnd as [|? ? Hnin Hnd']; subst.
  destruct (p k0); simpl; [|now apply IH].
  constructor; [|now apply IH].
  intros Hin. apply in_keys_filter in Hin. tauto.
Qed.

Lemma remove_key_absent k d : ~ In k (keys d) -> remove_key k d = d.
Proof.
  induction d as [|[k0 v0] r IH]; simpl; trivial.
  intros Hn. destruct (String.eqb_spec k k0); [subst; tauto|].
  f_equal. apply IH. tauto.
Qed.

Lemma remove_key_filter k d :
  wf_dict d -> remove_key k d = filter (fun kv => negb (String.eqb (fst kv) k)) d.
Proof.
  unfold wf_dict. induction d as [|[k0 v0] r IH]; simpl; trivial.
  intros Hnd. inversion Hnd as [|? ? Hnin Hnd']; subst.
  rewrite (String.eqb_sym k0 k).
  destruct (String.eqb_spec k k0); simpl.
  - subst. symmetry. apply (filter_keys_id (fun x => negb (String.eqb x k0))).
    intros k Hk. apply negb_true_iff, String.eqb_neq. congruence.
  - f_equal. now apply IH.
Qed.

Lemma wf_app_single k (v : value) d :
  wf_dict d -> ~ In k (keys d) -> wf_dict (d ++ [(k, v)]).
Proof.
  unfold wf_dict. intros Hwf Hn. rewrite keys_app. simpl.
  apply NoDup_app; trivial.
  - repeat constructor. simpl. tauto.
  - intros x Hx [<-|[]]. tauto.
Qed.

End MoreDictFacts.

Section MoreProcessors.

Lemma public_part_cons k v r :
  public_part ((k, v) :: r) =
  if startswith_underscore k then public_part r else (k, v) :: public_part r.
Proof. unfold public_part. simpl. now destruct (startswith_underscore k). Qed.

(** The loop invariant of [remove_internal_fields], as for the nester. *)
Lemma remove_internal_loop (rest : EventDict) :
  forall pre,
    NoDup (keys (pre ++ rest)) ->
    for_each remove_internal_step (keys rest) (pre ++ rest) =
    Ok (pre ++ public_part rest).
Proof.
  induction rest as [|[k v] r IH]; intros pre Hnd.
  - reflexivity.
  - assert (Hpre : ~ In k (keys pre)).
    { rewrite keys_app in Hnd. simpl in Hnd. apply NoDup_remove_2 in Hnd.
      rewrite in_app_iff in Hnd. tauto. }
    rewrite public_part_cons.
    cbn [keys map fst for_each]. fold (keys r).
    unfold remove_internal_step at 1.
    destruct (startswith_underscore k) eqn:Hu.
    + unfold dict_pop.
      rewrite lookup_app_fresh, remove_key_app_fresh by assumption.
      cbn [rbind]. apply IH.
      rewrite keys_app in *. simpl in Hnd. now apply NoDup_remove_1 in Hnd.
    + cbn [rbind].
      replace (pre ++ (k, v) :: r) with ((pre ++ [(k, v)]) ++ r)
        by now rewrite <- app_assoc.
      rewrite IH; now rewrite <- app_assoc.
Qed.

Lemma remove_internal_fields_eq ev :
  wf_dict ev -> remove_internal_fields ev = Ok (public_part ev).
Proof. intros Hwf. apply (remove_internal_loop ev [] Hwf). Qed.

Lemma nest_custom_fields_nested ev :
  wf_dict ev -> nest_custom_fields ev = Ok (nested ev).
Proof.
  intros Hwf. rewrite nest_custom_fields_eq by assumption. unfold nested.
  destruct (custom_part ev); trivial. now rewrite app_nil_r.
Qed.

Lemma in_keys_nested k ev :
  In k (keys (nested ev)) -> is_standard k = true \/ k = "details".
Proof.
  unfold nested. rewrite keys_app, in_app_iff. intros [Hin|Hin].
  - apply in_keys_filter in Hin. tauto.
  - destruct (custom_part ev); simpl in Hin; [tauto|].
    destruct Hin as [<-|[]]. tauto.
Qed.

Lemma nested_public k ev :
  In k (keys (nested ev)) -> startswith_underscore k = false.
Proof.
  intros Hin. apply in_keys_nested in Hin. destruct Hin as [Hs| ->]; trivial.
  now apply is_standard_not_internal.
Qed.

Lemma wf_nested ev : wf_dict ev -> wf_dict (nested ev).
Proof.
  intros Hwf. unfold nested. destruct (custom_part ev).
  - rewrite app_nil_r. now apply wf_filter.
  - apply wf_app_single; [now apply wf_filter|].
    apply details_not_in_standard_part.
Qed.

Lemma standard_part_public ev : standard_part (public_part ev) = standard_part ev.
Proof.
  unfold standard_part, public_part.
  rewrite (filter_filter_keys is_standard (fun k => negb (startswith_underscore k))).
  apply filter_ext. intros [k v]. simpl.
  destruct (is_standard k) eqn:Hs; trivial.
  now rewrite (is_standard_not_internal _ Hs).
Qed.

Lemma custom_part_public ev : custom_part (public_part ev) = custom_part ev.
Proof.
  unfold custom_part, public_part.
  rewrite (filter_filter_keys is_custom (fun k => negb (startswith_underscore k))).
  apply filter_ext. intros [k v]. simpl. unfold is_custom.
  now destruct (startswith_underscore k), (is_standard k).
Qed.

Lemma standard_part_nested ev : standard_part (nested ev) = standard_part ev.
Proof.
  unfold nested, standard_part. rewrite filter_app.
  rewrite (filter_filter_keys is_standard is_standard).
  replace (filter (fun kv => is_standard (fst kv))
             match custom_part ev with
             | [] => []
             | _ :: _ => [("details", VDict (custom_part ev))]
             end) with (@nil (string * value))
    by now destruct (custom_part ev).
  rewrite app_nil_r. apply filter_ext. intros [k v]. simpl.
  now destruct (is_standard k).
Qed.

Lemma custom_part_nested ev :
  custom_part (nested ev) =
  match custom_part ev with
  | [] => []
  | _ :: _ => [("details", VDict (custom_part ev))]
  end.
Proof.
  unfold nested. unfold custom_part at 1. rewrite filter_app.
  fold (custom_part (standard_part ev)).
  replace (custom_part (standard_part ev)) with (@nil (string * value)).
  - now destruct (custom_part ev).
  - symmetry. apply (filter_keys_none is_custom).
    intros k Hk. apply in_keys_filter in Hk. destruct Hk as [Hs _].
    unfold is_custom. rewrite Hs. apply andb_false_r.
Qed.

End MoreProcessors.

Section ProcessorProperties.

Lemma lookup_details_nested ev :
  lookup "details" (nested ev) =
  match custom_part ev with
  | [] => None
  | _ :: _ => Some (VDict (custom_part ev))
  end.
Proof.
  unfold nested. rewrite lookup_app_r by apply details_not_in_standard_part.
  destruct (custom_part ev); reflexivity.
Qed.

Lemma lookup_nested_moved k ev :
  is_standard k = false -> k <> "details" -> lookup k (nested ev) = None.
Proof.
  intros Hs Hd. apply lookup_None. intros Hin.
  apply in_keys_nested in Hin. destruct Hin; congruence.
Qed.

Lemma strip_eq ev :
  wf_dict ev ->
  remove_processors_meta_safe ev = filter (fun kv => negb (is_meta (fst kv))) ev.
Proof.
  intros Hwf. unfold remove_processors_meta_safe, dict_pop_default.
  rewrite (remove_key_filter "_record" Hwf).
  rewrite remove_key_filter
    by apply (wf_filter (fun x => negb (String.eqb x "_record")) Hwf).
  rewrite (filter_filter_keys (fun x => negb (String.eqb x "_from_structlog"))
             (fun x => negb (String.eqb x "_record"))).
  apply filter_ext. intros [k v]. unfold is_meta. cbn [fst].
  now destruct (String.eqb k "_record"), (String.eqb k "_from_structlog").
Qed.

End ProcessorProperties.

(** X1.  On an event with distinct keys the metadata stripper removes the
    entries of [_record] and [_from_structlog] and nothing else, keeping
    the order of the others; a missing key is no error, and a second run
    changes nothing. *)
Theorem remove_processors_meta_safe_exact (ev : EventDict) :
  wf_dict ev ->
  remove_processors_meta_safe ev = filter (fun kv => negb (is_meta (fst kv))) ev /\
  (forall k, lookup k (remove_processors_meta_safe ev) =
             if is_meta k then None else lookup k ev) /\
  remove_processors_meta_safe (remove_processors_meta_safe ev) =
  remove_processors_meta_safe ev.
Proof.
  intros Hwf. split; [now apply strip_eq|]. split.
  - intros k. rewrite strip_eq by assumption.
    rewrite (lookup_filter (fun x => negb (is_meta x))).
    now destruct (is_meta k).
  - rewrite (strip_eq Hwf).
    rewrite strip_eq by apply (wf_filter (fun x => negb (is_meta x)) Hwf).
    rewrite (filter_filter_keys (fun x => negb (is_meta x)) (fun x => negb (is_meta x))).
    apply filter_ext. intros [k v]. cbn [fst]. now destruct (is_meta k).
Qed.

Lemma remove_processors_meta_safe_exact_witness :
  remove_processors_meta_safe sample_event =
  [("event", VStr "Service started"); ("level", VStr "info");
   ("timestamp", VStr "2024-01-15T10:30:00Z");
   ("details", VStr "old"); ("version", VStr "1.0.0")].
Proof.
  rewrite (proj1 (@remove_processors_meta_safe_exact sample_event
                    (wf_dict_check sample_event eq_refl))).
  reflexivity.
Defined.

(** X2.  On an event with distinct keys [remove_internal_fields] returns
    without an error the entries whose key does not begin with an
    underscore, in their order and with their values; on its own result
    it changes nothing. *)
Theorem remove_internal_fields_exact (ev : EventDict) :
  wf_dict ev ->
  remove_internal_fields ev = Ok (public_part ev) /\
  (forall k, lookup k (public_part ev) =
             if startswith_underscore k then None else lookup k ev) /\
  remove_internal_fields (public_part ev) = Ok (public_part ev).
Proof.
  intros Hwf. split; [now apply remove_internal_fields_eq|]. split.
  - intros k. unfold public_part.
    rewrite (lookup_filter (fun x => negb (startswith_underscore x))).
    now destruct (startswith_underscore k).
  - rewrite remove_internal_fields_eq
      by apply (wf_filter (fun x => negb (startswith_underscore x)) Hwf).
    f_equal. unfold public_part.
    rewrite (filter_filter_keys (fun x => negb (startswith_underscore x))
               (fun x => negb (startswith_underscore x))).
    apply filter_ext. intros [k v]. cbn [fst].
    now destruct (startswith_underscore k).
Qed.

Lemma remove_internal_fields_exact_witness :
  remove_internal_fields sample_event =
  Ok [("event", VStr "Service started"); ("level", VStr "info");
      ("timestamp", VStr "2024-01-15T10:30:00Z");
      ("details", VStr "old"); ("version", VStr "1.0.0")].
Proof.
  rewrite (proj1 (@remove_internal_fields_exact sample_event
                    (wf_dict_check sample_event eq_refl))).
  reflexivity.
Defined.

(** X3.  Underscore-prefixed fields have no influence on the field
    nester: removing them first with [remove_internal_fields] gives the
    same nested event. *)
Theorem nest_custom_fields_ignores_internal (ev : EventDict) :
  wf_dict ev ->
  exists ev',
    remove_internal_fields ev = Ok ev' /\
    nest_custom_fields ev' = nest_custom_fields ev.
Proof.
  intros Hwf. exists (public_part ev).
  split; [now apply remove_internal_fields_eq|].
  rewrite !nest_custom_fields_nested; trivial.
  - unfold nested. now rewrite standard_part_public, custom_part_public.
  - apply (wf_filter (fun x => negb (startswith_underscore x)) Hwf).
Qed.

Lemma nest_custom_fields_ignores_internal_witness :
  exists ev',
    remove_internal_fields sample_event = Ok ev' /\
    nest_custom_fields ev' = nest_custom_fields sample_event.
Proof.
  apply (@nest_custom_fields_ignores_internal sample_event).
  apply wf_dict_check. reflexivity.
Defined.

(** X4.  After the field nester nothing is left for the metadata stripper
    or for [remove_internal_fields] to remove: both return the nested
    event as it is. *)
Theorem nothing_internal_after_nest (ev : EventDict) :
  wf_dict ev ->
  exists out,
    nest_custom_fields ev = Ok out /\
    remove_processors_meta_safe out = out /\
    remove_internal_fields out = Ok out.
Proof.
  intros Hwf. exists (nested ev).
  split; [now apply nest_custom_fields_nested|]. split.
  - unfold remove_processors_meta_safe, dict_pop_default.
    rewrite (remove_key_absent "_record").
    + apply remove_key_absent. intros Hin. apply nested_public in Hin. discriminate.
    + intros Hin. apply nested_public in Hin. discriminate.
  - rewrite remove_internal_fields_eq by now apply wf_nested.
    f_equal. apply (filter_keys_id (fun x => negb (startswith_underscore x))).
    intros k Hin. now rewrite (nested_public _ _ Hin).
Qed.

Lemma nothing_internal_after_nest_witness :
  exists out,
    nest_custom_fields sample_event = Ok out /\
    remove_processors_meta_safe out = out /\
    remove_internal_fields out = Ok out.
Proof.
  apply (@nothing_internal_after_nest sample_event).
  apply wf_dict_check. reflexivity.
Defined.

(** X5.  The field nester is not idempotent: applied to its own result,
    it wraps the [details] container in a new [details] container; only
    an event without custom fields is left as it is. *)
Theorem nest_custom_fields_twice (ev : EventDict) :
  wf_dict ev ->
  exists out,
    nest_custom_fields ev = Ok out /\
    nest_custom_fields out =
    Ok (match custom_part ev with
        | [] => out
        | _ :: _ =>
            standard_part ev ++
            [("details", VDict [("details", VDict (custom_part ev))])]
        end).
Proof.
  intros Hwf. exists (nested ev).
  split; [now apply nest_custom_fields_nested|].
  rewrite nest_custom_fields_nested by now apply wf_nested.
  f_equal. unfold nested at 1.
  rewrite standard_part_nested, custom_part_nested.
  unfold nested. destruct (custom_part ev); reflexivity.
Qed.

Lemma nest_custom_fields_twice_witness :
  exists out,
    nest_custom_fields sample_event = Ok out /\
    nest_custom_fields out =
    Ok [("timestamp", VStr "2024-01-15T10:30:00Z");
        ("details",
         VDict [("details",
                 VDict [("event", VStr "Service started"); ("level", VStr "info");
                        ("details", VStr "old"); ("version", VStr "1.0.0")])])].
Proof.
  destruct (@nest_custom_fields_twice sample_event) as [out [H1 H2]].
  - apply wf_dict_check. reflexivity.
  - exists out. split; [exact H1|]. rewrite H2. reflexivity.
Defined.

(** X6.  On an event with distinct keys and a text [level], the package's
    own stages in their configured order (normalize, nest, enrich,
    strip) return an event whose keys are standard fields, [details] or
    [span_id], none of them beginning with an underscore; without a
    correlation header there is no [span_id] either. *)
Theorem stage_chain_keys (sdk : SentrySdk) (ev : EventDict) (out : list string) :
  wf_dict ev ->
  level_text ev = true ->
  exists final out',
    run_processors
      [lift rename_and_flatten_fields; lift nest_custom_fields;
       add_sentry_trace_id sdk; pure remove_processors_meta_safe] ev out =
    (Ok final, out') /\
    (forall k, In k (keys final) ->
               is_standard k = true \/ k = "details" \/ k = "span_id") /\
    (correlation sdk = None ->
     forall k, In k (keys final) -> is_standard k = true \/ k = "details") /\
    (forall k, In k (keys final) -> startswith_underscore k = false).
Proof.
  intros Hwf Hl.
  cbn [run_processors]. unfold io_bind, lift, pure, io_lift, io_ret.
  rewrite rename_and_flatten_fields_eq by assumption.
  rewrite nest_custom_fields_nested by now apply wf_renamed.
  destruct (add_sentry_trace_id_cases sdk (nested (renamed ev)) out) as [diag ->].
  eexists. eexists. split; [reflexivity|].
  assert (Hkeys : forall k,
    In k (keys (remove_processors_meta_safe
                  match correlation sdk with
                  | Some (trace_id, span_id) =>
                      dict_set "span_id" (VStr span_id)
                        (dict_set "trace_id" (VStr trace_id) (nested (renamed ev)))
                  | None => nested (renamed ev)
                  end)) ->
    (is_standard k = true \/ k = "details") \/
    (k = "span_id" /\ correlation sdk <> None)).
  { intros k Hin. unfold remove_processors_meta_safe, dict_pop_default in Hin.
    apply in_keys_remove_key, in_keys_remove_key in Hin.
    destruct (correlation sdk) as [[t s]|].
    - apply in_keys_dict_set in Hin. destruct Hin as [->|Hin].
      + right. split; [reflexivity | discriminate].
      + apply in_keys_dict_set in Hin. destruct Hin as [->|Hin].
        * left. left. reflexivity.
        * left. now apply in_keys_nested in Hin.
    - left. now apply in_keys_nested in Hin. }
  split; [|split].
  - intros k Hin. destruct (Hkeys k Hin) as [[H|H]|[H _]]; tauto.
  - intros Hc k Hin. destruct (Hkeys k Hin) as [H|[_ H]]; [exact H | congruence].
  - intros k Hin. destruct (Hkeys k Hin) as [[H| ->]|[-> _]]; trivial.
    now apply is_standard_not_internal.
Qed.

Lemma stage_chain_keys_witness :
  exists final out',
    run_processors
      [lift rename_and_flatten_fields; lift nest_custom_fields;
       add_sentry_trace_id sample_sdk; pure remove_processors_meta_safe]
      sample_event [] = (Ok final, out') /\
    (forall k, In k (keys final) -> startswith_underscore k = false).
Proof.
  destruct (@stage_chain_keys sample_sdk sample_event [])
    as [final [out' [Hrun [_ [_ Hpub]]]]].
  - apply wf_dict_check. reflexivity.
  - reflexivity.
  - exists final, out'. split; assumption.
Defined.

(** X7.  A [logger_name] field of the caller does not stay at top level:
    normalization keeps its name and the nester, for which it is a custom
    field, moves it into [details].  The source names [event] and [level]
    occur neither at top level nor in [details] afterwards. *)
Theorem logger_name_is_nested (ev : EventDict) (v : value) :
  wf_dict ev ->
  level_text ev = true ->
  lookup "logger_name" ev = Some v ->
  exists ev1 out d,
    rename_and_flatten_fields ev = Ok ev1 /\
    nest_custom_fields ev1 = Ok out /\
    lookup "logger_name" out = None /\
    lookup "details" out = Some (VDict d) /\
    lookup "logger_name" d = Some v /\
    lookup "event" out = None /\ lookup "event" d = None /\
    lookup "level" out = None /\ lookup "level" d = None.
Proof.
  intros Hwf Hl Hv.
  exists (renamed ev), (nested (renamed ev)), (custom_part (renamed ev)).
  split; [now apply rename_and_flatten_fields_eq|].
  split; [apply nest_custom_fields_nested; now apply wf_renamed|].
  assert (Hd : lookup "logger_name" (custom_part (renamed ev)) = Some v).
  { unfold custom_part. rewrite (lookup_filter is_custom).
    cbn. now rewrite lookup_renamed_logger_name. }
  split; [apply lookup_nested_moved; [reflexivity | discriminate]|].
  split.
  { rewrite lookup_details_nested.
    destruct (custom_part (renamed ev)); [discriminate | reflexivity]. }
  split; [exact Hd|].
  split; [apply lookup_nested_moved; [reflexivity | discriminate]|].
  split.
  { unfold custom_part. rewrite (lookup_filter is_custom). cbn.
    now apply lookup_renamed_event. }
  split; [apply lookup_nested_moved; [reflexivity | discriminate]|].
  unfold custom_part. rewrite (lookup_filter is_custom). cbn.
  now apply lookup_renamed_level.
Qed.

Lemma logger_name_is_nested_witness :
  exists ev1 out d,
    rename_and_flatten_fields
      [("event", VStr "started"); ("logger_name", VStr "worker")] = Ok ev1 /\
    nest_custom_fields ev1 = Ok out /\
    lookup "logger_name" out = None /\
    lookup "details" out = Some (VDict d) /\
    lookup "logger_name" d = Some (VStr "worker").
Proof.
  destruct (@logger_name_is_nested
              [("event", VStr "started"); ("logger_name", VStr "worker")]
              (VStr "worker"))
    as [ev1 [out [d [H1 [H2 [H3 [H4 [H5 _]]]]]]]].
  - apply wf_dict_check. reflexivity.
  - reflexivity.
  - reflexivity.
  - exists ev1, out, d. repeat split; assumption.
Defined.

(* ------------------------------------------------------------------ *)
(** ** Further properties of the filters *)

Section FilterProperties.

(** Case analysis along the statements of a filter. *)
Ltac filter_paths :=
  repeat match goal with
         | |- context [rbind ?c _] => destruct c; cbn [rbind]
         | |- context [if ?b then _ else _] => destruct b
         end.

Lemma before_send_log_unaltered lvl item :
  unaltered item (before_send_log lvl item).
Proof. unfold before_send_log, unaltered. filter_paths; trivial. Qed.

Lemma before_breadcrumb_unaltered lvl item :
  unaltered item (before_breadcrumb lvl item).
Proof.
  unfold before_breadcrumb, unaltered.
  destruct (dict_get "level" item); filter_paths; trivial.
Qed.

Lemma before_send_unaltered item : unaltered item (before_send item).
Proof. unfold before_send, unaltered. filter_paths; trivial. Qed.

Lemma allowed_incl lvl lvl' :
  In lvl standard_levels -> In lvl' standard_levels -> (lvl' <= lvl)%Z ->
  incl (allowed_breadcrumb_levels lvl) (allowed_breadcrumb_levels lvl').
Proof.
  simpl. unfold logging_DEBUG, logging_INFO, logging_WARNING, logging_ERROR,
    logging_CRITICAL.
  intros [<-|[<-|[<-|[<-|[<-|[]]]]]] [<-|[<-|[<-|[<-|[<-|[]]]]]] Hle;
    try lia; intros x; cbn; tauto.
Qed.

Lemma existsb_incl (f : string -> bool) l l' :
  incl l l' -> existsb f l = true -> existsb f l' = true.
Proof.
  intros Hi H. apply existsb_exists in H. destruct H as [x [Hin Hx]].
  apply existsb_exists. exists x. split; [now apply Hi | exact Hx].
Qed.

Lemma min_breadcrumb_level_default lvl :
  ~ In lvl standard_levels -> min_breadcrumb_level lvl = "info".
Proof.
  intros Hn. unfold min_breadcrumb_level, breadcrumb_level_map.
  cbn [breadcrumb_level_map_get].
  repeat match goal with
         | |- context [Z.eqb lvl ?n] =>
             destruct (Z.eqb_spec lvl n); [exfalso; apply Hn; subst; simpl; tauto|]
         end.
  reflexivity.
Qed.

End FilterProperties.

(** X8.  None of the four Sentry hooks alters an item: each returns the
    very item it was given, or drops it, or raises. *)
Theorem filters_do_not_alter (lvl_e lvl_b : Z) (item : EventDict) :
  unaltered item (before_send_log lvl_e item) /\
  unaltered item (before_breadcrumb lvl_b item) /\
  unaltered item (before_send_transaction item) /\
  unaltered item (before_send item).
Proof.
  split; [apply before_send_log_unaltered|].
  split; [apply before_breadcrumb_unaltered|].
  split; [|apply before_send_unaltered].
  unfold before_send_transaction, unaltered.
  now destruct (eq_str _ _).
Qed.

(** X9.  Lowering the minimum event severity never drops a log item that
    was kept: an item kept at a threshold is kept at every lower one. *)
Theorem before_send_log_monotone (lvl lvl' : Z) (item : EventDict) :
  (lvl' <= lvl)%Z ->
  before_send_log lvl item = Ok (Some item) ->
  before_send_log lvl' item = Ok (Some item).
Proof.
  intros Hle. unfold before_send_log.
  destruct (truthy (dict_get "severity_text" item)); trivial.
  destruct (py_lower (dict_get "severity_text" item)) as [lowered|e];
    cbn [rbind]; trivial.
  destruct (Z.ltb_spec (severity_map_get severity_map lowered logging_INFO) lvl);
    [discriminate|].
  destruct (Z.ltb_spec (severity_map_get severity_map lowered logging_INFO) lvl');
    [lia | trivial].
Qed.

Lemma before_send_log_monotone_witness :
  before_send_log logging_INFO [("severity_text", VStr "error")] =
  Ok (Some [("severity_text", VStr "error")]).
Proof.
  apply (@before_send_log_monotone logging_ERROR logging_INFO).
  - unfold logging_INFO, logging_ERROR. lia.
  - reflexivity.
Defined.

(** X10.  Among the five logging levels, lowering the minimum breadcrumb
    level never drops a breadcrumb that was kept. *)
Theorem before_breadcrumb_monotone (lvl lvl' : Z) (crumb : EventDict) :
  In lvl standard_levels ->
  In lvl' standard_levels ->
  (lvl' <= lvl)%Z ->
  before_breadcrumb lvl crumb = Ok (Some crumb) ->
  before_breadcrumb lvl' crumb = Ok (Some crumb).
Proof.
  intros Hs Hs' Hle. unfold before_breadcrumb.
  match goal with
  | |- context [rbind ?c _] => destruct c as [[|]|]; cbn [rbind]; trivial
  end.
  assert (Hex : forall v,
    existsb (eq_str v) (allowed_breadcrumb_levels lvl) = true ->
    existsb (eq_str v) (allowed_breadcrumb_levels lvl') = true).
  { intros v. apply existsb_incl. now apply allowed_incl. }
  destruct (dict_get "level" crumb) as [| | |t| | |] eqn:Hv;
    try (destruct (existsb _ (allowed_breadcrumb_levels lvl)) eqn:E;
         [now rewrite (Hex _ E) | discriminate]).
  destruct (Z.leb_spec lvl logging_INFO); [|discriminate].
  destruct (Z.leb_spec lvl' logging_INFO); [trivial | lia].
Qed.

Lemma before_breadcrumb_monotone_witness :
  before_breadcrumb logging_DEBUG [("level", VStr "warning")] =
  Ok (Some [("level", VStr "warning")]).
Proof.
  apply (@before_breadcrumb_monotone logging_WARNING logging_DEBUG).
  - simpl. tauto.
  - simpl. tauto.
  - unfold logging_DEBUG, logging_WARNING. lia.
  - reflexivity.
Defined.

(** X11.  A minimum breadcrumb level that is none of the five logging
    levels counts as INFO for every breadcrumb that carries a level: the
    labels info, warning, error and fatal are allowed, whatever the
    number. *)
Theorem nonstandard_breadcrumb_level_is_info (lvl : Z) (crumb : EventDict) :
  ~ In lvl standard_levels ->
  dict_get "level" crumb <> VNone ->
  allowed_breadcrumb_levels lvl = ["info"; "warning"; "error"; "fatal"] /\
  before_breadcrumb lvl crumb = before_breadcrumb logging_INFO crumb.
Proof.
  intros Hn Hv.
  assert (Ha : allowed_breadcrumb_levels lvl = allowed_breadcrumb_levels logging_INFO).
  { unfold allowed_breadcrumb_levels. now rewrite min_breadcrumb_level_default. }
  split; [rewrite Ha; reflexivity|].
  unfold before_breadcrumb. rewrite Ha.
  destruct (dict_get "level" crumb); [congruence | reflexivity ..].
Qed.

Lemma nonstandard_breadcrumb_level_is_info_witness :
  before_breadcrumb 5 [("level", VStr "debug")] = Ok None.
Proof.
  rewrite (proj2 (@nonstandard_breadcrumb_level_is_info 5 [("level", VStr "debug")]
                    ltac:(simpl; intuition discriminate) ltac:(discriminate))).
  reflexivity.
Defined.

(** X12.  On an item without severity label, attributes and body (the
    shape of an event of the logging integration) the event filter and
    [before_send] decide alike, at every minimum event severity. *)
Theorem before_send_agrees (lvl : Z) (event : EventDict) :
  truthy (dict_get "severity_text" event) = false ->
  lookup "attributes" event = None ->
  truthy (dict_get_default "body" (VStr EmptyString) event) = false ->
  before_send_log lvl event = before_send event.
Proof.
  intros Hs Ha Hb. unfold before_send_log, before_send.
  rewrite Hs, Hb. cbn [rbind negb].
  unfold dict_get_default at 2. rewrite Ha. cbn [py_get dict_get_default lookup].
  destruct (truthy (dict_get_default "logger" (VStr EmptyString) event)) eqn:Ht;
    cbn [negb rbind].
  - reflexivity.
  - cbn [eq_str String.eqb].
    destruct (dict_get_default "logger" (VStr EmptyString) event) as [| | |s| | |];
      try reflexivity.
    cbn [truthy] in Ht. apply negb_false_iff, String.eqb_eq in Ht. now subst.
Qed.

Lemma before_send_agrees_witness :
  before_send_log logging_ERROR
    [("logger", VStr "uvicorn.access");
     ("logentry", VDict [("formatted", VStr "GET /health HTTP/1.1 200")])] =
  Ok None.
Proof.
  rewrite (@before_send_agrees logging_ERROR
             [("logger", VStr "uvicorn.access");
              ("logentry", VDict [("formatted", VStr "GET /health HTTP/1.1 200")])]
             eq_refl eq_refl eq_refl).
  reflexivity.
Defined.

(* ------------------------------------------------------------------ *)
(** ** The configuration gate *)

Import Config.

Section Gate.

Variable sentry_sdk_init : SentryInit -> result unit.

Lemma get_logger_skips a w :
  is_configured w = true ->
  get_logger sentry_sdk_init a w = (w, Ok (service_name a)).
Proof. intros H. unfold get_logger. now rewrite H. Qed.

(** A call that returns leaves the flag set. *)
Lemma get_logger_returns a w w' l :
  get_logger sentry_sdk_init a w = (w', Ok l) ->
  is_configured w' = true /\ l = service_name a.
Proof.
  unfold get_logger. destruct (is_configured w) eqn:E; cbn [negb].
  - intros H. inversion H. subst. tauto.
  - match goal with
    | |- context [match ?x with Ok _ => _ | Raise _ => _ end] => destruct x
    end; intros H; inversion H; subst; simpl; tauto.
Qed.

(** A call that raises has changed nothing. *)
Lemma get_logger_raises a w w' e :
  get_logger sentry_sdk_init a w = (w', Raise e) ->
  w' = w /\ is_configured w = false.
Proof.
  unfold get_logger. destruct (is_configured w) eqn:E; cbn [negb].
  - discriminate.
  - match goal with
    | |- context [match ?x with Ok _ => _ | Raise _ => _ end] => destruct x
    end; intros H; inversion H; subst; tauto.
Qed.

(** What a configuring call that returns has called and left behind. *)
Lemma get_logger_configures a w w' l :
  is_configured w = false ->
  get_logger sentry_sdk_init a w = (w', Ok l) ->
  (if dsn_given (sentry_dsn a)
   then exists i,
       sentry_sdk_init i = Ok tt /\
       i = (if production_or_test a
            then FullInit (sentry_dsn a) (sentry_environment a)
                   (sentry_sample_rate a) (sentry_send_pii a)
                   (sentry_breadcrumbs_level a) (sentry_log_level a)
            else MinimalInit (sentry_dsn a) (sentry_environment a)) /\
       sentry_inits w' = sentry_inits w ++ [i]
   else sentry_inits w' = sentry_inits w) /\
  is_configured w' = true /\
  structlog_processors w' =
    Some (shared_processor_names (sentry_dsn a) ++ [SWrapForFormatter]) /\
  root_handlers w' = [StdoutJsonHandler (shared_processor_names (sentry_dsn a))] /\
  root_level w' = log_level a.
Proof.
  intros Hw. unfold get_logger, production_or_test. rewrite Hw. cbn [negb].
  destruct (dsn_given (sentry_dsn a)).
  - rewrite andb_true_r.
    destruct (environment_is (sentry_environment a) "production" ||
              environment_is (sentry_environment a) "test");
      match goal with
      | |- context [sentry_sdk_init ?i] =>
          destruct (sentry_sdk_init i) as [[]|e] eqn:Hi
      end; cbn [rbind]; intros H; inversion H; subst; clear H; simpl;
      (split; [eexists; split; [exact Hi|]; split; reflexivity | tauto]).
  - rewrite andb_false_r. intros H. inversion H. subst. simpl. tauto.
Qed.

Lemma configured_for_get_logger a w w' l :
  is_configured w = false ->
  get_logger sentry_sdk_init a w = (w', Ok l) ->
  configured_for (sentry_dsn a) w'.
Proof.
  intros Hw H. destruct (get_logger_configures _ _ Hw H) as [_ [Hc [Hp [Hh _]]]].
  unfold configured_for. rewrite Hc. tauto.
Qed.

Lemma configured_for_run_call c w dsn :
  configured_for dsn w ->
  exists dsn', configured_for dsn' (run_call sentry_sdk_init w c).
Proof.
  intros Hc. destruct c as [a|]; cbn [run_call].
  - destruct (get_logger sentry_sdk_init a w) as [w' [l|e]] eqn:Hg; cbn [fst].
    + destruct (is_configured w) eqn:E.
      * rewrite get_logger_skips in Hg by assumption. inversion Hg. subst. eauto.
      * exists (sentry_dsn a). eapply configured_for_get_logger; eassumption.
    + apply get_logger_raises in Hg. destruct Hg as [-> _]. eauto.
  - exists dsn. destruct Hc as [Hh _]. unfold configured_for. simpl. tauto.
Qed.

Lemma configured_for_run_calls cs :
  forall w dsn,
    configured_for dsn w ->
    exists dsn', configured_for dsn' (run_calls sentry_sdk_init cs w).
Proof.
  unfold run_calls.
  induction cs as [|c cs IH]; intros w dsn Hc; cbn [fold_left].
  - eauto.
  - destruct (configured_for_run_call c Hc) as [dsn' Hc']. eapply IH, Hc'.
Qed.

Lemma later_calls_skip (later : list Args) w :
  is_configured w = true ->
  run_calls sentry_sdk_init (map GetLogger later) w = w.
Proof.
  intros Hw. unfold run_calls.
  induction later as [|a' later IH]; trivial.
  cbn [map fold_left run_call]. now rewrite get_logger_skips.
Qed.

End Gate.

(** The names of the configured chain are the processors of [emit]. *)
Lemma processor_of_shared (structlog : Structlog) (sdk : SentrySdk)
  (dsn : option string) :
  map (processor_of structlog sdk) (shared_processor_names dsn) =
  shared_processors structlog sdk dsn.
Proof.
  unfold shared_processor_names, shared_processors.
  now destruct (dsn_given dsn).
Qed.

(** X13.  A call of [get_logger] that returns leaves the process
    configured, and further calls of it then change nothing, whatever
    their arguments.  A call that raises, because Sentry refuses the
    initialisation, has changed nothing and has not set the flag: the
    next call starts over. *)
Theorem later_calls_change_nothing (sentry_sdk_init : SentryInit -> result unit)
  (a : Args) (later : list Args) (w : World) :
  match get_logger sentry_sdk_init a w with
  | (w1, Ok l) =>
      l = service_name a /\
      is_configured w1 = true /\
      run_calls sentry_sdk_init (map GetLogger later) w1 = w1
  | (w1, Raise _) => w1 = w /\ is_configured w = false
  end.
Proof.
  destruct (get_logger sentry_sdk_init a w) as [w1 [l|e]] eqn:Hg.
  - destruct (@get_logger_returns _ _ _ _ _ Hg) as [Hc Hl].
    split; [exact Hl|]. split; [exact Hc|]. now apply later_calls_skip.
  - eapply (@get_logger_raises _ _ _ _ _ Hg).
Qed.

(** X14.  From a first call of [get_logger] that returns on, through any
    further calls and resets, whether they return or raise, the root
    logger has one handler, the stdout JSON handler, and its chain for
    foreign records is the chain that structlog holds while the flag is
    set; after a reset structlog is at its defaults and the handler is
    still in place. *)
Theorem one_handler_one_chain (sentry_sdk_init : SentryInit -> result unit)
  (a : Args) (cs : list call) (w w1 : World) (l : string) :
  is_configured w = false ->
  get_logger sentry_sdk_init a w = (w1, Ok l) ->
  exists dsn, configured_for dsn (run_calls sentry_sdk_init cs w1).
Proof.
  intros Hw Hg. eapply configured_for_run_calls.
  eapply configured_for_get_logger; eassumption.
Qed.

Lemma one_handler_one_chain_witness :
  exists dsn,
    configured_for dsn
      (run_calls refuse_bad_dsn
         [ResetConfiguration; GetLogger bad_dsn_args; GetLogger local_args]
         (fst (get_logger refuse_bad_dsn sample_args initial_world))).
Proof.
  apply (@one_handler_one_chain refuse_bad_dsn sample_args
           [ResetConfiguration; GetLogger bad_dsn_args; GetLogger local_args]
           initial_world _ "my-service").
  - reflexivity.
  - reflexivity.
Defined.

(** X15.  A configuring call of [get_logger] that returns has, with a
    DSN, initialised Sentry once and put the trace enricher last in the
    chain that structlog runs.  Only in the environments production and
    test has it enabled tracing and installed the filter hooks, bound to
    the levels of that call; in any other environment Sentry has no hook
    and no tracing, and the enricher is in the chain all the same.
    Without a DSN nothing was initialised and the chain has no enricher.
    The chain is in each case the one [emit] runs. *)
Theorem sentry_mode (sentry_sdk_init : SentryInit -> result unit)
  (structlog : Structlog) (sdk : SentrySdk)
  (a : Args) (w w' : World) (l : string) :
  is_configured w = false ->
  get_logger sentry_sdk_init a w = (w', Ok l) ->
  (exists names,
      structlog_processors w' = Some (names ++ [SWrapForFormatter]) /\
      map (processor_of structlog sdk) names =
        shared_processors structlog sdk (sentry_dsn a) /\
      (In SAddSentryTraceId names <-> dsn_given (sentry_dsn a) = true)) /\
  (dsn_given (sentry_dsn a) = true ->
   exists i,
     sentry_sdk_init i = Ok tt /\
     sentry_inits w' = sentry_inits w ++ [i] /\
     init_dsn i = sentry_dsn a /\
     init_enable_tracing i = production_or_test a /\
     init_before_send_log i =
       (if production_or_test a
        then Some (before_send_log (sentry_log_level a)) else None) /\
     init_before_breadcrumb i =
       (if production_or_test a
        then Some (before_breadcrumb (sentry_breadcrumbs_level a)) else None) /\
     init_before_send_transaction i =
       (if production_or_test a then Some before_send_transaction else None)) /\
  (dsn_given (sentry_dsn a) = false -> sentry_inits w' = sentry_inits w).
Proof.
  intros Hw Hg.
  destruct (@get_logger_configures _ _ _ _ _ Hw Hg) as [Hi [_ [Hp _]]].
  split; [|split].
  - exists (shared_processor_names (sentry_dsn a)).
    split; [exact Hp|]. split; [apply processor_of_shared|].
    unfold shared_processor_names.
    destruct (dsn_given (sentry_dsn a)); simpl; split; intros H;
      intuition discriminate.
  - intros Hd. rewrite Hd in Hi. destruct Hi as [i [Hok [-> Hin]]].
    eexists. split; [exact Hok|]. split; [exact Hin|].
    destruct (production_or_test a); repeat split.
  - intros Hd. now rewrite Hd in Hi.
Qed.

Lemma sentry_mode_witness :
  exists i,
    sentry_inits (fst (get_logger refuse_bad_dsn staging_args initial_world)) = [i] /\
    init_enable_tracing i = false /\
    init_before_send_log i = None /\
    In SAddSentryTraceId (shared_processor_names (sentry_dsn staging_args)).
Proof.
  destruct (@sentry_mode refuse_bad_dsn sample_structlog sample_sdk
              staging_args initial_world _ "my-service" eq_refl eq_refl)
    as [_ [Hfull _]].
  destruct (Hfull eq_refl) as [i [_ [Hi [_ [Ht [Hl _]]]]]].
  exists i. split; [exact Hi|]. split; [exact Ht|]. split; [exact Hl|].
  simpl. tauto.
Defined.

(** X16.  After a reset the next call of [get_logger] that returns has
    configured again, with its own arguments: with a DSN on both calls
    Sentry has been initialised a second time on top of the first, and
    the root handler, the chain and the root level are those of the
    second call.  Without the reset the second call changes nothing. *)
Theorem reset_then_configure (sentry_sdk_init : SentryInit -> result unit)
  (a1 a2 : Args) (w0 w1 w2 : World) (l1 l2 : string) :
  is_configured w0 = false ->
  get_logger sentry_sdk_init a1 w0 = (w1, Ok l1) ->
  get_logger sentry_sdk_init a2 (reset_configuration w1) = (w2, Ok l2) ->
  dsn_given (sentry_dsn a1) = true ->
  dsn_given (sentry_dsn a2) = true ->
  (exists i1 i2,
      sentry_inits w2 = sentry_inits w0 ++ [i1; i2] /\
      init_dsn i1 = sentry_dsn a1 /\ init_dsn i2 = sentry_dsn a2) /\
  configured_for (sentry_dsn a2) w2 /\
  is_configured w2 = true /\
  root_level w2 = log_level a2 /\
  get_logger sentry_sdk_init a2 w1 = (w1, Ok (service_name a2)).
Proof.
  intros Hw0 Hg1 Hg2 Hd1 Hd2.
  destruct (@get_logger_configures _ _ _ _ _ Hw0 Hg1) as [Hi1 [Hc1 _]].
  assert (Hr : is_configured (reset_configuration w1) = false) by reflexivity.
  destruct (@get_logger_configures _ _ _ _ _ Hr Hg2) as [Hi2 [Hc2 [_ [_ Hl2]]]].
  rewrite Hd1 in Hi1. rewrite Hd2 in Hi2.
  destruct Hi1 as [i1 [_ [E1 Hs1]]]. destruct Hi2 as [i2 [_ [E2 Hs2]]].
  split; [|split; [|split; [|split]]].
  - exists i1, i2. split.
    + rewrite Hs2. cbn [reset_configuration sentry_inits]. rewrite Hs1.
      now rewrite <- app_assoc.
    + rewrite E1, E2. now destruct (production_or_test a1), (production_or_test a2).
  - eapply configured_for_get_logger; eassumption.
  - exact Hc2.
  - exact Hl2.
  - now apply get_logger_skips.
Qed.

Lemma reset_then_configure_witness :
  exists i1 i2,
    sentry_inits
      (run_calls refuse_bad_dsn
         [GetLogger sample_args; ResetConfiguration; GetLogger staging_args]
         initial_world) = [i1; i2] /\
    init_dsn i1 = sample_dsn /\ init_dsn i2 = sample_dsn.
Proof.
  destruct (@reset_then_configure refuse_bad_dsn sample_args staging_args
              initial_world _ _ "my-service" "my-service"
              eq_refl eq_refl eq_refl eq_refl eq_refl)
    as [[i1 [i2 H]] _].
  exists i1, i2. exact H.
Defined.

(** A DSN that Sentry refuses: the call raises and configures nothing,
    and the next call does configure. *)
Example get_logger_bad_dsn :
  get_logger refuse_bad_dsn bad_dsn_args initial_world =
    (initial_world, Raise (Exception "Unsupported scheme ''")) /\
  run_calls refuse_bad_dsn [GetLogger bad_dsn_args; GetLogger local_args]
    initial_world =
  fst (get_logger refuse_bad_dsn local_args initial_world) /\
  is_configured (fst (get_logger refuse_bad_dsn local_args initial_world)) = true.
Proof. repeat split. Qed.
